(** * Session-liveness tracker of [app.py]

    A shallow embedding of the connection tracking code of the Dash
    application: the module-level registry ([active_connections],
    [connection_last_ping]), the callback [handle_connection_status] and the
    body of the polling loop of [monitor_connections].

    Conventions of the embedding.
    - [time.time()] is a number of seconds; it is modelled by [Z] and every
      reading of the clock is an explicit argument of the code that reads it.
    - The [connection-status] store holds [None] or a dictionary, as the
      client-side callback writes it; its fields are [None] or strings.
    - [print] appends a record to [stdout]; [os._exit] is recorded in
      [exit_calls] and ends the process.
    - Both critical sections run under [connection_lock], so an execution of
      the program is a sequence of whole handler calls and whole loop
      iterations, in the order in which they take the lock. *)

From Stdlib Require Import ZArith Lia.
From stdpp Require Import base option list strings pretty gmap fin_sets fin_maps
  sorting.

Set Warnings "-clear-no-such-hyp,-register-all".

Local Open Scope Z_scope.

(* ===================================================================== *)
(** ** Python values and output *)
(* ===================================================================== *)

(** The payload fields [data.get('id')] and [data.get('status')]. *)
Inductive pyval :=
| PyNone
| PyStr (s : string).

#[global] Instance pyval_eq_dec : EqDecision pyval.
Proof. solve_decision. Defined.

Definition pyval_to_option (v : pyval) : option string :=
  match v with PyNone => None | PyStr s => Some s end.

Definition pyval_of_option (o : option string) : pyval :=
  match o with None => PyNone | Some s => PyStr s end.

#[global] Instance pyval_countable : Countable pyval.
Proof.
  refine (inj_countable' pyval_to_option pyval_of_option _).
  intros v; destruct v; reflexivity.
Defined.

(** Python truth value: [None] and the empty string are falsy. *)
Definition truthy (v : pyval) : bool :=
  match v with
  | PyNone => false
  | PyStr s => negb (bool_decide (s = EmptyString))
  end.

(** [v == 'lit'] for a string literal. *)
Definition eq_str (v : pyval) (lit : string) : bool :=
  bool_decide (v = PyStr lit).

(** One record per [print] call of the tracker; the integer is
    [len(active_connections)] at the time of the call. *)
Inductive log_line :=
| WarnEmptyData
| StatusUpdateReceived (status connection_id : pyval)
| NewConnection (connection_id : pyval) (n : nat)
| ConnectionClosed (connection_id : pyval) (n : nat)
| ReconnectedViaPing (connection_id : pyval) (n : nat)
| ConnectionHidden (connection_id : pyval) (n : nat)
| UnhandledStatus (status connection_id : pyval)
| RemovedStale (connection_id : pyval) (n : nat)
| AllConnectionsClosed.

(* ===================================================================== *)
(** ** Program state *)
(* ===================================================================== *)

(** The module globals, the two locals of [monitor_connections] that live
    across iterations, and the observable effects. *)
Record world := World {
  active_connections : gset pyval;
  connection_last_ping : gmap pyval Z;
  startup_time : Z;
  had_connections : bool;
  stdout : list log_line;
  exit_calls : list Z;
}.

Definition with_active (s : gset pyval) (w : world) : world :=
  World s (connection_last_ping w) (startup_time w) (had_connections w)
        (stdout w) (exit_calls w).

Definition with_last_ping (m : gmap pyval Z) (w : world) : world :=
  World (active_connections w) m (startup_time w) (had_connections w)
        (stdout w) (exit_calls w).

Definition with_had (b : bool) (w : world) : world :=
  World (active_connections w) (connection_last_ping w) (startup_time w) b
        (stdout w) (exit_calls w).

Definition with_stdout (l : list log_line) (w : world) : world :=
  World (active_connections w) (connection_last_ping w) (startup_time w)
        (had_connections w) l (exit_calls w).

Definition with_exit_calls (l : list Z) (w : world) : world :=
  World (active_connections w) (connection_last_ping w) (startup_time w)
        (had_connections w) (stdout w) l.

(** The part of the state the shutdown decision depends on. *)
Definition alive (w : world) : bool :=
  match exit_calls w with [] => true | _ => false end.

(* ===================================================================== *)
(** ** A state monad with exceptions and process exit *)
(* ===================================================================== *)

Inductive exn :=
| KeyError (k : pyval)
| AttributeError.

Inductive outcome (A : Type) :=
| Return (a : A)
| Raise (e : exn)
| Exited.
Arguments Return {A} a.
Arguments Raise {A} e.
Arguments Exited {A}.

Definition M (A : Type) : Type := world -> outcome A * world.

Definition ret {A} (a : A) : M A := fun w => (Return a, w).

Definition bind {A B} (m : M A) (k : A -> M B) : M B :=
  fun w =>
    match m w with
    | (Return a, w') => k a w'
    | (Raise e, w') => (Raise e, w')
    | (Exited, w') => (Exited, w')
    end.

#[global] Instance M_ret : MRet M := @ret.
#[global] Instance M_bind : MBind M := fun A B k m => bind m k.

(** [print(...)] *)
Definition print (l : log_line) : M unit :=
  fun w => (Return tt, with_stdout (stdout w ++ [l]) w).

(** [active_connections.add(k)] *)
Definition set_add (k : pyval) : M unit :=
  fun w => (Return tt, with_active ({[k]} ∪ active_connections w) w).

(** [active_connections.remove(k)]: raises [KeyError] on an absent key. *)
Definition set_remove (k : pyval) : M unit :=
  fun w =>
    if bool_decide (k ∈ active_connections w)
    then (Return tt, with_active (active_connections w ∖ {[k]}) w)
    else (Raise (KeyError k), w).

(** [k in active_connections] *)
Definition set_contains (k : pyval) : M bool :=
  fun w => (Return (bool_decide (k ∈ active_connections w)), w).

(** [len(active_connections)] *)
Definition set_len : M nat :=
  fun w => (Return (size (active_connections w)), w).

(** [connection_last_ping[k] = v] *)
Definition dict_set (k : pyval) (v : Z) : M unit :=
  fun w => (Return tt, with_last_ping (<[k := v]> (connection_last_ping w)) w).

(** [connection_last_ping.pop(k, None)]: never raises. *)
Definition dict_pop (k : pyval) : M unit :=
  fun w => (Return tt, with_last_ping (delete k (connection_last_ping w)) w).

(** [os._exit(code)]: the process ends at once. *)
Definition os_exit (code : Z) : M unit :=
  fun w => (Exited, with_exit_calls (exit_calls w ++ [code]) w).

(** [for x in l: body(x)] *)
Fixpoint for_each {A} (l : list A) (body : A -> M unit) : M unit :=
  match l with
  | [] => ret tt
  | x :: rest => body x ;; for_each rest body
  end.

(* ===================================================================== *)
(** ** [handle_connection_status] *)
(* ===================================================================== *)

(** The callback's return value. *)
Inductive dash_value :=
| no_update.

(** The store content in the shape of the protocol: [None] or a dictionary
    whose fields are [None] or strings. For the other JSON values see
    [read_signal] below. *)
Definition payload := option (gmap string pyval).

(** [not data] *)
Definition falsy_payload (data : payload) : bool :=
  match data with
  | None => true
  | Some d => bool_decide (d = ∅)
  end.

(** [data.get(key)] *)
Definition payload_get (data : payload) (key : string) : pyval :=
  match data with
  | None => PyNone
  | Some d => default PyNone (d !! key)
  end.

(** [now] is the value of [time.time()] read before the lock is taken; it is
    read only when the payload is not empty. [known] is the value of
    [connection_id in active_connections] in the test of the second branch;
    reading it has no effect. *)
Definition handle_connection_status (data : payload) (now : Z) : M dash_value :=
  if falsy_payload data then
    print WarnEmptyData ;;
    ret no_update
  else
    let connection_id := payload_get data "id" in
    let status := payload_get data "status" in
    print (StatusUpdateReceived status connection_id) ;;
    let current_time := now in
    (* with connection_lock: *)
    (known ← set_contains connection_id;
     if eq_str status "connected" && truthy connection_id then
       set_add connection_id ;;
       dict_set connection_id current_time ;;
       n ← set_len;
       print (NewConnection connection_id n)
     else if eq_str status "disconnected" && known then
       set_remove connection_id ;;
       dict_pop connection_id ;;
       n ← set_len;
       print (ConnectionClosed connection_id n)
     else if eq_str status "ping" && truthy connection_id then
       dict_set connection_id current_time ;;
       tracked ← set_contains connection_id;
       if negb tracked then
         set_add connection_id ;;
         n ← set_len;
         print (ReconnectedViaPing connection_id n)
       else ret tt
     else if eq_str status "hidden" && truthy connection_id then
       dict_set connection_id current_time ;;
       tracked ← set_contains connection_id;
       (if negb tracked then set_add connection_id else ret tt) ;;
       n ← set_len;
       print (ConnectionHidden connection_id n)
     else
       print (UnhandledStatus status connection_id)) ;;
    ret no_update.

(* ===================================================================== *)
(** ** [monitor_connections] *)
(* ===================================================================== *)

Definition startup_grace_period : Z := 60.
Definition connection_timeout : Z := 300.
(** The argument of [time.sleep] at the head of the loop. *)
Definition sweep_interval : Z := 2.

(** The test of the scan: [last_ping > 0 and current_time - last_ping >
    connection_timeout], with [last_ping = connection_last_ping.get(conn_id, 0)]. *)
Definition is_stale (w : world) (current_time : Z) (conn_id : pyval) : bool :=
  let last_ping := default 0 (connection_last_ping w !! conn_id) in
  (0 <? last_ping) && (connection_timeout <? current_time - last_ping).

(** The list built by the first [for] loop. Python leaves the iteration
    order of a set open; the order of [elements] stands for it, and only the
    order of the output lines depends on it. *)
Definition stale_connections (w : world) (current_time : Z) : list pyval :=
  List.filter (is_stale w current_time) (elements (active_connections w)).

Definition set_had_connections (b : bool) : M unit :=
  fun w => (Return tt, with_had b w).

(** The body of the second [for] loop. *)
Definition evict (conn_id : pyval) : M unit :=
  set_remove conn_id ;;
  dict_pop conn_id ;;
  n ← set_len;
  print (RemovedStale conn_id n).

(** The two [for] loops of the critical section: collect, then remove. *)
Definition remove_stale_connections (current_time : Z) : M unit :=
  fun w => for_each (stale_connections w current_time) evict w.

(** The final [if active_connections: ... elif had_connections: ...]. *)
Definition shutdown_check : M unit :=
  fun w =>
    if bool_decide (active_connections w ≠ ∅) then
      set_had_connections true w
    else if had_connections w then
      (print AllConnectionsClosed ;;
       os_exit 0) w
    else ret tt w.

(** One iteration of the [while True] loop, after [time.sleep(2)].
    [t_check] is the clock reading of the grace-period test and [now] the
    reading assigned to [current_time]; the second is made only when the test
    fails. *)
Definition monitor_iteration (t_check now : Z) : M unit :=
  fun w =>
    if t_check - startup_time w <? startup_grace_period then
      (* continue *)
      ret tt w
    else
      let current_time := now in
      (* with connection_lock: *)
      (remove_stale_connections current_time ;;
       shutdown_check) w.

(** The [while True] loop, for as many iterations as the clock is read: one
    pair of readings per iteration. The loop only ends with the process. *)
Definition monitor_connections (clock : list (Z * Z)) : M unit :=
  for_each clock (fun '(t_check, now) => monitor_iteration t_check now).

(* ===================================================================== *)
(** ** Executions *)
(* ===================================================================== *)

(** The state when the monitor thread has read [startup_time = t0]. *)
Definition init (t0 : Z) : world :=
  World ∅ ∅ t0 false [] [].

Inductive event :=
| Signal (data : payload) (now : Z)
| Tick (t_check now : Z).

(** A process that has called [os._exit] executes nothing more. Neither the
    callback nor the loop body raises (see [handler_returns] and
    [monitor_iteration_outcome]), so the state after a call is the second
    component of its result. The lines a handler prints before it takes the
    lock are put with its locked section: [stdout] has the lines of each call
    in order, not the order in which the threads interleave them. *)
Definition step (e : event) (w : world) : world :=
  if alive w then
    match e with
    | Signal data now => snd (handle_connection_status data now w)
    | Tick t_check now => snd (monitor_iteration t_check now w)
    end
  else w.

Definition run (evs : list event) (w : world) : world :=
  fold_left (fun w e => step e w) evs w.

(** The states an execution goes through, the first one included. *)
Fixpoint trace (evs : list event) (w : world) : list world :=
  match evs with
  | [] => [w]
  | e :: rest => w :: trace rest (step e w)
  end.

(** A payload [{'id': id, 'status': status}]. *)
Definition signal (status id : string) : payload :=
  Some (<["id" := PyStr id]> (<["status" := PyStr status]> ∅)).

(* ===================================================================== *)
(** ** Vocabulary of the statements *)
(* ===================================================================== *)

(** The four kinds of the protocol. *)
Definition recognized (status : pyval) : bool :=
  eq_str status "connected" || eq_str status "disconnected" ||
  eq_str status "ping" || eq_str status "hidden".

(** The kinds whose branch records a last-ping time. *)
Definition refreshing (status : pyval) : bool :=
  eq_str status "connected" || eq_str status "ping" || eq_str status "hidden".

(** Every tracked id has a last-ping time and conversely. *)
Definition registry_consistent (w : world) : Prop :=
  dom (connection_last_ping w) = active_connections w.

(** The clock reading an iteration of the loop works with: the one of the
    grace-period test when the iteration stops there, [current_time]
    otherwise. *)
Definition tick_now (w : world) (t_check now : Z) : Z :=
  if t_check - startup_time w <? startup_grace_period then t_check else now.

(** An event that is a [connected] or [ping] signal for [c]. *)
Definition keepalive_for (c : pyval) (e : event) : Prop :=
  match e with
  | Signal data _ =>
      payload_get data "id" = c /\
      eq_str (payload_get data "status") "connected"
      || eq_str (payload_get data "status") "ping" = true
  | Tick _ _ => False
  end.

(** How many times [c] occurs when [active_connections] is enumerated. *)
Definition entry_count (c : pyval) (w : world) : nat :=
  length (List.filter (fun x => bool_decide (x = c))
                      (elements (active_connections w))).

(** The clock readings an event makes. *)
Definition readings (e : event) : list Z :=
  match e with
  | Signal _ now => [now]
  | Tick t_check now => [t_check; now]
  end.

(** No reading of the clock is below [t0]. *)
Definition clock_from (t0 : Z) (evs : list event) : Prop :=
  Forall (fun e => Forall (fun t => t0 <= t) (readings e)) evs.

(** Only truthy ids are ever tracked. *)
Definition ids_truthy (w : world) : Prop :=
  forall c, c ∈ active_connections w -> truthy c = true.

(** The process exits only on an empty registry. *)
Definition exit_on_empty (w : world) : Prop :=
  (alive w = false -> active_connections w = ∅) /\
  (length (exit_calls w) <= 1)%nat.

(** No recorded time is below [t0]. *)
Definition pings_from (t0 : Z) (w : world) : Prop :=
  forall c ls, connection_last_ping w !! c = Some ls -> t0 <= ls.

(** The invariants of the states reached from process start. *)
Record reachable_inv (t0 : Z) (w : world) : Prop := ReachableInv {
  inv_startup : startup_time w = t0;
  inv_consistent : registry_consistent w;
  inv_truthy : ids_truthy w;
  inv_exit : exit_on_empty w;
}.

(** The two containers after a handler call, computed from the containers
    before it: the three outcomes of the [if]/[elif] chain. *)
Definition registry_effect (data : payload) (now : Z)
    (reg : gset pyval * gmap pyval Z) : gset pyval * gmap pyval Z :=
  let c := payload_get data "id" in
  let st := payload_get data "status" in
  if refreshing st && truthy c then
    ({[c]} ∪ fst reg, <[c := now]> (snd reg))
  else if eq_str st "disconnected" && bool_decide (c ∈ fst reg) then
    (fst reg ∖ {[c]}, delete c (snd reg))
  else reg.

(** The two containers of a state. *)
Definition registry (w : world) : gset pyval * gmap pyval Z :=
  (active_connections w, connection_last_ping w).

(** The lines the removal loop prints for the list [l] of stale ids when
    [n] sessions are tracked before it: the count goes down by one a line. *)
Definition eviction_lines (n : nat) (l : list pyval) : list log_line :=
  imap (fun i c => RemovedStale c (n - S i)) l.

(* ===================================================================== *)
(** ** The head of the callback on any store content *)
(* ===================================================================== *)

(** What the [connection-status] store can hand to the callback: any JSON
    value, as Python sees it after decoding. Numbers are taken as integers. *)
Inductive json :=
| JNull
| JBool (b : bool)
| JNumber (n : Z)
| JString (s : string)
| JArray (items : list json)
| JObject (fields : list (string * json)).

(** Python truth value of a decoded JSON value. *)
Definition json_truthy (v : json) : bool :=
  match v with
  | JNull => false
  | JBool b => b
  | JNumber n => negb (n =? 0)
  | JString s => negb (bool_decide (s = EmptyString))
  | JArray items => match items with [] => false | _ => true end
  | JObject fields => match fields with [] => false | _ => true end
  end.

(** The value of a key in a decoded object: of repeated keys the last one
    counts. *)
Fixpoint json_field (fields : list (string * json)) (key : string) : option json :=
  match fields with
  | [] => None
  | (k, v) :: rest =>
      match json_field rest key with
      | Some v' => Some v'
      | None => if bool_decide (k = key) then Some v else None
      end
  end.

(** [raise e] *)
Definition raise {A} (e : exn) : M A := fun w => (Raise e, w).

(** [data.get(key)]: of the JSON values only a dictionary has the method;
    on the others the attribute lookup raises. *)
Definition json_get (data : json) (key : string) : M json :=
  match data with
  | JObject fields => ret (default JNull (json_field fields key))
  | _ => raise AttributeError
  end.

(** Lines 332 to 337 of [handle_connection_status] for any store content:
    the test [not data] with its early return, here [None], then the two
    reads [data.get('id')] and [data.get('status')]. *)
Definition read_signal (data : json) : M (option (json * json)) :=
  if negb (json_truthy data) then
    print WarnEmptyData ;;
    ret None
  else
    connection_id ← json_get data "id";
    status ← json_get data "status";
    ret (Some (connection_id, status)).

(** The payloads of [handle_connection_status] above, as JSON values. *)
Definition json_of_pyval (v : pyval) : json :=
  match v with
  | PyNone => JNull
  | PyStr s => JString s
  end.

Definition json_of_payload (data : payload) : json :=
  match data with
  | None => JNull
  | Some d => JObject (map_to_list (json_of_pyval <$> d))
  end.

(* ===================================================================== *)
(** ** The figures callback: tables, rows and the pandas operations *)
(* ===================================================================== *)

(** The columns offered by the two metric dropdowns. *)
Definition NUMERIC_COLS : list string :=
  ["danceability";
   "energy";
   "loudness";
   "speechiness";
   "acousticness";
   "instrumentalness";
   "liveness";
   "valence";
   "tempo";
   "duration_ms";
   "popularity"].

(** The display name of each metric. *)
Definition metric_labels : gmap string string :=
  list_to_map
    [("danceability", "Danceability");
     ("energy", "Energy");
     ("loudness", "Loudness (dB)");
     ("speechiness", "Speechiness");
     ("acousticness", "Acousticness");
     ("instrumentalness", "Instrumentalness");
     ("liveness", "Liveness");
     ("valence", "Valence");
     ("tempo", "Tempo (BPM)");
     ("duration_ms", "Duration (ms)");
     ("popularity", "Popularity (0‑100)")].

(** A row of the dataset, with the columns the callback reads by name; the
    audio feature columns are carried along and read by plotly only. *)
Record track := Track {
  track_name : string;
  artists : string;
  track_genre : string;
  popularity : Z;
  explicit : bool;
}.

(** The exceptions of the callback's own code: a subscript of [pop_range]
    and a lookup in [metric_labels]. *)
Inductive figures_exn :=
| IndexError
| MetricKeyError (key : string).

Inductive result (A : Type) :=
| Ok (a : A)
| Err (e : figures_exn).
Arguments Ok {A} a.
Arguments Err {A} e.

#[global] Instance result_ret : MRet result := @Ok.
#[global] Instance result_bind : MBind result := fun A B k m =>
  match m with
  | Ok a => k a
  | Err e => Err e
  end.

(** [pop_range[i]] for a literal index [i]. *)
Definition subscript (l : list Z) (i : nat) : result Z :=
  match l !! i with
  | Some v => Ok v
  | None => Err IndexError
  end.

(** [metric_labels[col]] *)
Definition metric_label (col : string) : result string :=
  match metric_labels !! col with
  | Some l => Ok l
  | None => Err (MetricKeyError col)
  end.

(** [Series.isin(values)], row by row. *)
Definition isin (values : list string) (g : string) : bool :=
  bool_decide (g ∈ values).

(** [Series.between(left, right)], row by row: both ends included. *)
Definition between (left right v : Z) : bool :=
  (left <=? v) && (v <=? right).

(** The mask [df.track_genre.isin(genres) & df.popularity.between(lo, hi)]. *)
Definition row_mask (genres : list string) (lo hi : Z) (r : track) : bool :=
  isin genres (track_genre r) && between lo hi (popularity r).

(** The first part of [update_figures]: the filtered frame [dff]. *)
Definition filter_dataframe (df : list track) (genres : list string)
    (pop_range : list Z) (explicit_filter : string) : result (list track) :=
  lo ← subscript pop_range 0;
  hi ← subscript pop_range 1;
  let dff := List.filter (row_mask genres lo hi) df in
  mret (if bool_decide (explicit_filter = "non") then
          List.filter (fun r => negb (explicit r)) dff
        else if bool_decide (explicit_filter = "explicit") then
          List.filter explicit dff
        else dff).

(** The [subset] of [drop_duplicates]. *)
Definition track_key (r : track) : string * string :=
  (track_name r, artists r).

(** The rows whose key is not the key of an earlier row, nor in [seen]: the
    first occurrences. *)
Fixpoint first_occurrences {A K : Type} `{EqDecision K}
    (key : A -> K) (seen : list K) (l : list A) : list A :=
  match l with
  | [] => []
  | r :: rest =>
      if bool_decide (key r ∈ seen) then first_occurrences key seen rest
      else r :: first_occurrences key (key r :: seen) rest
  end.

(** [drop_duplicates(subset=["track_name", "artists"])]: of the rows with the
    same name and artists the first is kept. *)
Definition drop_duplicates (l : list track) : list track :=
  first_occurrences track_key [] l.

(** [Series.unique()]: the distinct values, in order of first appearance. *)
Definition unique (l : list string) : list string :=
  first_occurrences (fun g => g) [] l.

(** Insertion into a sorted list of strings, after the smaller ones. *)
Fixpoint insert_string (s : string) (l : list string) : list string :=
  match l with
  | [] => [s]
  | y :: rest =>
      if String.ltb y s then y :: insert_string s rest else s :: y :: rest
  end.

(** [sorted(...)] on strings: Python compares them by code point, which for
    UTF-8 text is the order of the bytes. *)
Definition sorted (l : list string) : list string :=
  foldr insert_string [] l.

(** The values of the options of the genre dropdown:
    [sorted(df.track_genre.unique())]. The label of an option is the value
    capitalized. *)
Definition genre_values (df : list track) : list string :=
  sorted (unique (track_genre <$> df)).

(** The initial value of the genre dropdown. *)
Definition default_genres (df : list track) : list string :=
  if bool_decide ("pop" ∈ track_genre <$> df) then ["pop"; "rock"]
  else take 3 (genre_values df).

(** Insertion into a list sorted by [key], after the rows of smaller key and
    before the others. *)
Fixpoint insert_by (key : track -> Z) (r : track) (l : list track) : list track :=
  match l with
  | [] => [r]
  | y :: rest =>
      if key y <? key r then y :: insert_by key r rest else r :: y :: rest
  end.

(** A sort by increasing [key] in which rows of equal key keep their order. *)
Definition sort_by (key : track -> Z) (l : list track) : list track :=
  foldr (insert_by key) [] l.

(** [nlargest(n, "popularity")]: the [n] rows of largest popularity, largest
    first; among rows of equal popularity the first ones are preferred
    (pandas' default [keep='first']). *)
Definition nlargest (n : nat) (l : list track) : list track :=
  take n (sort_by (fun r => - popularity r) l).

(** [sort_values("popularity", ascending=True)]. pandas leaves the order of
    rows of equal popularity open; the order of [sort_by] stands for it. *)
Definition sort_values (l : list track) : list track :=
  sort_by popularity l.

(** The frame of the bar chart. *)
Definition bar_frame (dff : list track) : list track :=
  let unique_tracks := drop_duplicates dff in
  sort_values (nlargest 10 unique_tracks).

(** A call of plotly express, as the arguments it is given. *)
Inductive px_function := px_scatter | px_box | px_bar.

Record figure := Figure {
  fig_function : px_function;
  fig_data : list track;
  fig_x : string;
  fig_y : string;
  fig_color : option string;
  fig_points : option string;
  fig_orientation : option string;
  fig_hover_data : list string;
  fig_labels : gmap string string;
  fig_title : string;
}.

(** [update_figures], with the dataset [df] as an argument. The labels are
    looked up for the [labels] dictionary of the scatter plot, [x_col] first,
    and again, with the same result, for the titles and the box plot. The
    columns of [NUMERIC_COLS] are taken to be columns of the dataset, so that
    plotly accepts them. *)
Definition update_figures (df : list track) (genres : list string)
    (pop_range : list Z) (explicit_filter x_col y_col : string)
    : result (figure * figure * figure) :=
  dff ← filter_dataframe df genres pop_range explicit_filter;
  x_label ← metric_label x_col;
  y_label ← metric_label y_col;
  let scatter :=
    Figure px_scatter dff x_col y_col (Some "track_genre") None None
      ["track_name"; "artists"; "popularity"]
      (<["track_genre" := "Genre"]> (<[y_col := y_label]> (<[x_col := x_label]> ∅)))
      (x_label +:+ " vs " +:+ y_label +:+ " (" +:+ pretty (length dff)
       +:+ " tracks)") in
  let box :=
    Figure px_box dff "track_genre" y_col None (Some "all") None []
      (<[y_col := y_label]> (<["track_genre" := "Genre"]> ∅))
      ("Distribution of " +:+ y_label +:+ " by Genre") in
  let bar :=
    Figure px_bar (bar_frame dff) "popularity" "track_name" None None (Some "h")
      ["artists"; "track_genre"]
      (<["track_name" := "Track"]> (<["popularity" := "Popularity"]> ∅))
      "Top 10 Most Popular Tracks (filtered)" in
  mret (scatter, box, bar).

(** The options of the two metric dropdowns of the layout:
    [[{"label": metric_labels[c], "value": c} for c in NUMERIC_COLS]], as
    pairs of label and value. *)
Fixpoint metric_options_of (cols : list string) : result (list (string * string)) :=
  match cols with
  | [] => mret []
  | c :: rest =>
      l ← metric_label c;
      opts ← metric_options_of rest;
      mret ((l, c) :: opts)
  end.

Definition metric_options : result (list (string * string)) :=
  metric_options_of NUMERIC_COLS.

(* ===================================================================== *)
(** ** Facts about [handle_connection_status] *)
(* ===================================================================== *)

Ltac handler_unfold :=
  unfold handle_connection_status, mbind, M_bind, bind, mret, M_ret, ret,
    print, set_contains, set_add, set_remove, set_len, dict_set, dict_pop.

Ltac handler_cases :=
  repeat (case_match; simplify_eq/=;
          rewrite ?andb_false_r, ?andb_true_r in *; try done).

Section handler_facts.
Implicit Types (data : payload) (now : Z) (w : world) (c st : pyval).

Lemma payload_get_falsy data k :
  falsy_payload data = true -> payload_get data k = PyNone.
Proof.
  destruct data as [d|]; simpl; [|done].
  intros ->%bool_decide_eq_true. by rewrite lookup_empty.
Qed.

Lemma payload_not_falsy data k :
  payload_get data k ≠ PyNone -> falsy_payload data = false.
Proof.
  intros H. destruct (falsy_payload data) eqn:E; [|done].
  by apply (payload_get_falsy _ k) in E.
Qed.

Lemma eq_str_true st lit : eq_str st lit = true <-> st = PyStr lit.
Proof. unfold eq_str. apply bool_decide_eq_true. Qed.

Lemma eq_str_lit a b : eq_str (PyStr a) b = bool_decide (a = b).
Proof. unfold eq_str. apply bool_decide_ext. split; congruence. Qed.

(** The callback never raises and always returns [dash.no_update]. *)
Lemma handler_returns data now w :
  fst (handle_connection_status data now w) = Return no_update.
Proof.
  handler_unfold. destruct (falsy_payload data); [done|]. cbn.
  handler_cases.
Qed.

(** It touches neither the locals of the monitor thread nor the process. *)
Lemma handler_frame data now w :
  let w' := snd (handle_connection_status data now w) in
  had_connections w' = had_connections w /\
  startup_time w' = startup_time w /\
  exit_calls w' = exit_calls w.
Proof.
  handler_unfold. destruct (falsy_payload data); [done|]. cbn.
  handler_cases.
Qed.

(** Empty payload: one warning, nothing else. *)
Lemma handler_empty data now w :
  falsy_payload data = true ->
  snd (handle_connection_status data now w) =
  with_stdout (stdout w ++ [WarnEmptyData]) w.
Proof. intros H. handler_unfold. by rewrite H. Qed.

(** The [connected], [ping] and [hidden] branches with a truthy id. *)
Lemma handler_upsert data now w :
  let c := payload_get data "id" in
  let w' := snd (handle_connection_status data now w) in
  refreshing (payload_get data "status") = true ->
  truthy c = true ->
  active_connections w' = {[c]} ∪ active_connections w /\
  connection_last_ping w' = <[c := now]> (connection_last_ping w).
Proof.
  intros c w'. subst c w'. unfold refreshing.
  rewrite !orb_true_iff, !eq_str_true. intros Hst Hc.
  handler_unfold.
  destruct Hst as [[Hst|Hst]|Hst];
    rewrite (payload_not_falsy data "status") by (rewrite Hst; discriminate);
    rewrite Hc, Hst, !eq_str_lit; cbn;
    handler_cases; split; try done; try set_solver.
  all: match goal with
       | H : negb (bool_decide _) = false |- _ =>
           apply negb_false_iff, bool_decide_eq_true in H
       end; set_solver.
Qed.

(** The [disconnected] branch for a tracked id. *)
Lemma handler_remove data now w :
  let c := payload_get data "id" in
  let w' := snd (handle_connection_status data now w) in
  payload_get data "status" = PyStr "disconnected" ->
  c ∈ active_connections w ->
  active_connections w' = active_connections w ∖ {[c]} /\
  connection_last_ping w' = delete c (connection_last_ping w).
Proof.
  intros c w' Hst Hc. subst c w'. handler_unfold.
  rewrite (payload_not_falsy data "status") by (rewrite Hst; discriminate).
  rewrite Hst, !eq_str_lit. cbn.
  rewrite (bool_decide_eq_true_2 _ Hc). cbn. handler_cases.
  match goal with H : bool_decide _ = false |- _ =>
    by apply bool_decide_eq_false in H end.
Qed.

(** The final [else]: the two log lines and nothing else. *)
Lemma handler_unhandled data now w :
  let c := payload_get data "id" in
  let st := payload_get data "status" in
  falsy_payload data = false ->
  eq_str st "connected" && truthy c = false ->
  eq_str st "disconnected" && bool_decide (c ∈ active_connections w) = false ->
  eq_str st "ping" && truthy c = false ->
  eq_str st "hidden" && truthy c = false ->
  snd (handle_connection_status data now w) =
  with_stdout (stdout w ++ [StatusUpdateReceived st c; UnhandledStatus st c]) w.
Proof.
  intros c st Hf H1 H2 H3 H4. subst c st. handler_unfold.
  rewrite Hf. cbn. rewrite H1, H2, H3, H4. cbn.
  unfold with_stdout. cbn. by rewrite <- app_assoc.
Qed.

End handler_facts.

(* ===================================================================== *)
(** ** Facts about [monitor_connections] *)
(* ===================================================================== *)

Section monitor_facts.
Implicit Types (w : world) (c : pyval) (l : list pyval) (t : Z).

Lemma evict_tracked c w :
  c ∈ active_connections w ->
  evict c w =
  (Return tt,
   World (active_connections w ∖ {[c]}) (delete c (connection_last_ping w))
         (startup_time w) (had_connections w)
         (stdout w ++ [RemovedStale c (size (active_connections w ∖ {[c]}))])
         (exit_calls w)).
Proof.
  intros Hc. unfold evict, mbind, M_bind, bind, set_remove, dict_pop, set_len, print.
  by rewrite (bool_decide_eq_true_2 _ Hc).
Qed.

(** The removal loop over a duplicate-free list of tracked ids never hits
    [KeyError], and removes exactly the listed ids from both containers. *)
Lemma for_each_evict l : forall w,
  NoDup l ->
  (forall c, c ∈ l -> c ∈ active_connections w) ->
  exists w',
    for_each l evict w = (Return tt, w') /\
    active_connections w' = active_connections w ∖ list_to_set l /\
    (forall c, connection_last_ping w' !! c =
               if bool_decide (c ∈ l) then None else connection_last_ping w !! c) /\
    startup_time w' = startup_time w /\
    had_connections w' = had_connections w /\
    exit_calls w' = exit_calls w.
Proof.
  induction l as [|x l IH]; intros w Hnd Hin.
  - exists w. cbn. split; [done|]. split; [set_solver|]. split; [|done].
    intros c. rewrite bool_decide_eq_false_2; [done|]. by intros ?%elem_of_nil.
  - apply NoDup_cons in Hnd as [Hx Hnd].
    assert (Hxw : x ∈ active_connections w) by (apply Hin; left).
    destruct (IH (snd (evict x w)) Hnd) as (w' & Hrun & Hact & Hlp & Hst & Hhad & Hex).
    { intros c Hc. rewrite (evict_tracked _ _ Hxw). cbn.
      apply elem_of_difference. split; [apply Hin; by right|].
      intros ->%elem_of_singleton. done. }
    exists w'. rewrite (evict_tracked _ _ Hxw) in *. cbn in *.
    unfold mbind, M_bind, bind. rewrite (evict_tracked _ _ Hxw).
    repeat split; try done.
    + rewrite Hact. set_solver.
    + intros c. rewrite Hlp.
      destruct (decide (c = x)) as [->|Hne].
      * rewrite (bool_decide_eq_true_2 (x ∈ x :: l)) by left.
        case_bool_decide; [done|]. apply lookup_delete_eq.
      * rewrite lookup_delete_ne by done.
        apply (f_equal (fun b : bool => if b then _ else _)).
        apply bool_decide_ext. rewrite elem_of_cons. naive_solver.
Qed.

Lemma elem_of_stale_connections w t c :
  c ∈ stale_connections w t <->
  c ∈ active_connections w /\ is_stale w t c = true.
Proof.
  unfold stale_connections.
  rewrite list_elem_of_In, filter_In, <- list_elem_of_In, elem_of_elements.
  done.
Qed.

Lemma NoDup_stale_connections w t : NoDup (stale_connections w t).
Proof.
  unfold stale_connections.
  apply NoDup_ListNoDup, List.NoDup_filter, NoDup_ListNoDup, NoDup_elements.
Qed.

(** The scan and the removal loop together. *)
Lemma remove_stale_connections_spec t w :
  exists w',
    remove_stale_connections t w = (Return tt, w') /\
    (forall c, c ∈ active_connections w' <->
               c ∈ active_connections w /\ is_stale w t c = false) /\
    (forall c, connection_last_ping w' !! c =
               if bool_decide (c ∈ active_connections w) && is_stale w t c
               then None else connection_last_ping w !! c) /\
    startup_time w' = startup_time w /\
    had_connections w' = had_connections w /\
    exit_calls w' = exit_calls w.
Proof.
  destruct (for_each_evict (stale_connections w t) w (NoDup_stale_connections w t))
    as (w' & Hrun & Hact & Hlp & Hfr).
  { intros c. rewrite elem_of_stale_connections. tauto. }
  exists w'. split; [done|]. split; [|split; [|done]].
  - intros c. rewrite Hact, elem_of_difference, elem_of_list_to_set,
      elem_of_stale_connections.
    destruct (is_stale w t c); naive_solver.
  - intros c. rewrite Hlp.
    apply (f_equal (fun b : bool => if b then _ else _)).
    destruct (is_stale w t c) eqn:E.
    + rewrite andb_true_r. apply bool_decide_ext.
      rewrite elem_of_stale_connections. tauto.
    + rewrite andb_false_r. apply bool_decide_eq_false_2.
      rewrite elem_of_stale_connections. intros [_ ?]. congruence.
Qed.

(** During the grace period an iteration does nothing. *)
Lemma monitor_iteration_grace t_check now w :
  t_check - startup_time w < startup_grace_period ->
  monitor_iteration t_check now w = (Return tt, w).
Proof.
  intros H. unfold monitor_iteration.
  by rewrite (proj2 (Z.ltb_lt _ _) H).
Qed.

(** After the grace period: eviction, then the shutdown decision on the
    registry that is left. *)
Lemma monitor_iteration_armed t_check now w :
  startup_grace_period <= t_check - startup_time w ->
  let r := monitor_iteration t_check now w in
  (forall c, c ∈ active_connections (snd r) <->
             c ∈ active_connections w /\ is_stale w now c = false) /\
  (forall c, connection_last_ping (snd r) !! c =
             if bool_decide (c ∈ active_connections w) && is_stale w now c
             then None else connection_last_ping w !! c) /\
  startup_time (snd r) = startup_time w /\
  (active_connections (snd r) ≠ ∅ ->
     fst r = Return tt /\ had_connections (snd r) = true /\
     exit_calls (snd r) = exit_calls w) /\
  (active_connections (snd r) = ∅ -> had_connections w = true ->
     fst r = Exited /\ had_connections (snd r) = true /\
     exit_calls (snd r) = exit_calls w ++ [0]) /\
  (active_connections (snd r) = ∅ -> had_connections w = false ->
     fst r = Return tt /\ had_connections (snd r) = false /\
     exit_calls (snd r) = exit_calls w).
Proof.
  intros Hg r. subst r. unfold monitor_iteration.
  rewrite (proj2 (Z.ltb_ge _ _) Hg).
  destruct (remove_stale_connections_spec now w)
    as (w1 & Hrun & Hact & Hlp & Hst & Hhad & Hex).
  unfold mbind, M_bind, bind. rewrite Hrun.
  unfold shutdown_check, set_had_connections, mbind, M_bind, bind, print, os_exit, ret.
  case_bool_decide as Hne; cbn.
  - repeat split; try done; try apply Hact; try (intros; by rewrite ?Hex).
  - destruct (had_connections w1) eqn:E; cbn;
      repeat split; try done; try apply Hact;
      try (intros; congruence).
    all: intros; by rewrite ?Hex.
Qed.

(** The loop body never raises, and it ends the process exactly when it
    records an exit call. *)
Lemma monitor_iteration_outcome t_check now w :
  let r := monitor_iteration t_check now w in
  (fst r = Return tt /\ exit_calls (snd r) = exit_calls w) \/
  (fst r = Exited /\ exit_calls (snd r) = exit_calls w ++ [0]).
Proof.
  intros r. subst r.
  destruct (Z.lt_ge_cases (t_check - startup_time w) startup_grace_period) as [Hg|Hg].
  { left. by rewrite monitor_iteration_grace. }
  destruct (monitor_iteration_armed t_check now w Hg) as (_ & _ & _ & Hne & Hex & Hno).
  destruct (decide (active_connections (snd (monitor_iteration t_check now w)) = ∅))
    as [He|He].
  - destruct (had_connections w) eqn:Hh.
    + right. by destruct (Hex He eq_refl) as (? & _ & ?).
    + left. by destruct (Hno He eq_refl) as (? & _ & ?).
  - left. by destruct (Hne He) as (? & _ & ?).
Qed.

End monitor_facts.

(* ===================================================================== *)
(** ** Facts about executions *)
(* ===================================================================== *)

Section execution_facts.
Implicit Types (w : world) (e : event) (evs : list event) (c : pyval).

(** Which of its three effects on the registry a handler call has. *)
Lemma handler_effect data now w :
  let c := payload_get data "id" in
  let w' := snd (handle_connection_status data now w) in
  (active_connections w' = active_connections w /\
   connection_last_ping w' = connection_last_ping w) \/
  (truthy c = true /\
   active_connections w' = {[c]} ∪ active_connections w /\
   connection_last_ping w' = <[c := now]> (connection_last_ping w)) \/
  (c ∈ active_connections w /\
   active_connections w' = active_connections w ∖ {[c]} /\
   connection_last_ping w' = delete c (connection_last_ping w)).
Proof.
  intros c w'. subst c w'.
  destruct (falsy_payload data) eqn:Hf.
  { left. by rewrite handler_empty. }
  destruct (refreshing (payload_get data "status") && truthy (payload_get data "id")) eqn:Hup.
  { apply andb_true_iff in Hup as [Hr Ht]. right. left. split; [done|].
    by apply handler_upsert. }
  destruct (eq_str (payload_get data "status") "disconnected"
            && bool_decide (payload_get data "id" ∈ active_connections w)) eqn:Hrm.
  { apply andb_true_iff in Hrm as [Hs Hin]. right. right.
    apply eq_str_true in Hs. apply bool_decide_eq_true in Hin.
    split; [done|]. by apply handler_remove. }
  left. rewrite handler_unhandled; try done.
  all: unfold refreshing in Hup;
    destruct (truthy (payload_get data "id"));
    rewrite ?andb_false_r, ?andb_true_r in *; try done;
    repeat (apply orb_false_iff in Hup as [Hup ?]); done.
Qed.

Lemma step_dead e w : alive w = false -> step e w = w.
Proof. intros H. unfold step. by rewrite H. Qed.

Lemma run_dead evs w : alive w = false -> run evs w = w.
Proof.
  intros H. induction evs as [|e evs IH]; [done|].
  cbn. rewrite step_dead by done. apply IH.
Qed.

Lemma run_app evs evs' w : run (evs ++ evs') w = run evs' (run evs w).
Proof. apply fold_left_app. Qed.

Lemma run_cons e evs w : run (e :: evs) w = run evs (step e w).
Proof. reflexivity. Qed.

Lemma run_snoc evs e w : run (evs ++ [e]) w = step e (run evs w).
Proof. by rewrite run_app. Qed.

(** A property kept by every step is kept by every execution. *)
Lemma run_invariant (P : world -> Prop) :
  (forall e w, P w -> P (step e w)) ->
  forall evs w, P w -> P (run evs w).
Proof.
  intros Hstep evs. induction evs as [|e evs IH]; intros w Hw; [done|].
  cbn. apply IH, Hstep, Hw.
Qed.

Lemma step_startup_time e w : startup_time (step e w) = startup_time w.
Proof.
  unfold step. destruct (alive w); [|done]. destruct e as [data now|t1 t2].
  - apply handler_frame.
  - destruct (Z.lt_ge_cases (t1 - startup_time w) startup_grace_period) as [Hg|Hg].
    + by rewrite monitor_iteration_grace.
    + apply (monitor_iteration_armed t1 t2 w Hg).
Qed.

Lemma run_startup_time evs w : startup_time (run evs w) = startup_time w.
Proof.
  apply (run_invariant (fun w' => startup_time w' = startup_time w)); [|done].
  intros e w' <-. apply step_startup_time.
Qed.

(** [had_connections] is only ever assigned [True]. *)
Lemma step_had_connections e w :
  had_connections w = true -> had_connections (step e w) = true.
Proof.
  intros Hh. unfold step. destruct (alive w); [|done].
  destruct e as [data now|t1 t2].
  - by rewrite (proj1 (handler_frame data now w)).
  - destruct (Z.lt_ge_cases (t1 - startup_time w) startup_grace_period) as [Hg|Hg].
    + by rewrite monitor_iteration_grace.
    + destruct (monitor_iteration_armed t1 t2 w Hg) as (_ & _ & _ & Hne & Hex & _).
      destruct (decide (active_connections (snd (monitor_iteration t1 t2 w)) = ∅)) as [He|He].
      * by apply Hex.
      * by apply Hne.
Qed.

Lemma run_had_connections evs w :
  had_connections w = true -> had_connections (run evs w) = true.
Proof.
  apply (run_invariant (fun w => had_connections w = true)).
  intros e w'. apply step_had_connections.
Qed.

(** The handler keeps the registry consistent. *)
Lemma handler_consistent data now w :
  registry_consistent w ->
  registry_consistent (snd (handle_connection_status data now w)).
Proof.
  unfold registry_consistent. intros Hc.
  destruct (handler_effect data now w) as [[-> ->]|[(_ & -> & ->)|(_ & -> & ->)]].
  - done.
  - by rewrite dom_insert_L, Hc.
  - by rewrite dom_delete_L, Hc.
Qed.

(** So does an iteration of the monitor loop. *)
Lemma monitor_consistent t1 t2 w :
  registry_consistent w ->
  registry_consistent (snd (monitor_iteration t1 t2 w)).
Proof.
  unfold registry_consistent. intros Hc.
  destruct (Z.lt_ge_cases (t1 - startup_time w) startup_grace_period) as [Hg|Hg].
  { by rewrite monitor_iteration_grace. }
  destruct (monitor_iteration_armed t1 t2 w Hg) as (Hact & Hlp & _).
  apply set_eq. intros c. rewrite elem_of_dom, Hlp, Hact.
  destruct (decide (c ∈ active_connections w)) as [Hin|Hin].
  - rewrite (bool_decide_eq_true_2 _ Hin). cbn.
    assert (is_Some (connection_last_ping w !! c)) by (apply elem_of_dom; by rewrite Hc).
    destruct (is_stale w t2 c); split; try done; try tauto.
    intros [? ?]. done.
  - rewrite (bool_decide_eq_false_2 _ Hin). cbn.
    rewrite <- elem_of_dom, Hc. tauto.
Qed.

Lemma step_consistent e w :
  registry_consistent w -> registry_consistent (step e w).
Proof.
  intros Hc. unfold step. destruct (alive w); [|done].
  destruct e; [by apply handler_consistent|by apply monitor_consistent].
Qed.

Lemma step_ids_truthy e w : ids_truthy w -> ids_truthy (step e w).
Proof.
  unfold ids_truthy. intros Hw c. unfold step. destruct (alive w); [|by apply Hw].
  destruct e as [data now|t1 t2].
  - destruct (handler_effect data now w) as [[-> _]|[(Ht & -> & _)|(_ & -> & _)]].
    + apply Hw.
    + intros [->%elem_of_singleton|?]%elem_of_union; [done|by apply Hw].
    + intros [? _]%elem_of_difference. by apply Hw.
  - destruct (Z.lt_ge_cases (t1 - startup_time w) startup_grace_period) as [Hg|Hg].
    + rewrite monitor_iteration_grace by done. apply Hw.
    + destruct (monitor_iteration_armed t1 t2 w Hg) as (Hact & _).
      rewrite Hact. intros [? _]. by apply Hw.
Qed.

Lemma step_exit_on_empty e w : exit_on_empty w -> exit_on_empty (step e w).
Proof.
  intros Hw. unfold step. destruct (alive w) eqn:Ha; [|done].
  assert (Hnil : exit_calls w = []).
  { unfold alive in Ha. by destruct (exit_calls w). }
  unfold exit_on_empty, alive. destruct e as [data now|t1 t2].
  - destruct (handler_frame data now w) as (_ & _ & ->). rewrite Hnil.
    split; [done|cbn; lia].
  - destruct (Z.lt_ge_cases (t1 - startup_time w) startup_grace_period) as [Hg|Hg].
    { rewrite monitor_iteration_grace by done. cbn. rewrite Hnil.
      split; [done|cbn; lia]. }
    destruct (monitor_iteration_armed t1 t2 w Hg) as (_ & _ & _ & Hne & Hex & Hno).
    destruct (decide (active_connections (snd (monitor_iteration t1 t2 w)) = ∅)) as [He|He].
    + split; [done|]. destruct (had_connections w) eqn:Hh.
      * destruct (Hex He eq_refl) as (_ & _ & ->). rewrite Hnil. cbn. lia.
      * destruct (Hno He eq_refl) as (_ & _ & ->). rewrite Hnil. cbn. lia.
    + destruct (Hne He) as (_ & _ & ->). rewrite Hnil.
      split; [done|cbn; lia].
Qed.

Lemma step_pings_from t0 e w :
  Forall (fun t => t0 <= t) (readings e) ->
  pings_from t0 w -> pings_from t0 (step e w).
Proof.
  unfold pings_from. intros Hr Hw c ls. unfold step.
  destruct (alive w); [|by apply Hw]. destruct e as [data now|t1 t2].
  - apply Forall_cons in Hr as [Hnow _].
    destruct (handler_effect data now w) as [[_ ->]|[(_ & _ & ->)|(_ & _ & ->)]].
    + apply Hw.
    + rewrite lookup_insert. case_decide; [by intros [= <-]|apply Hw].
    + rewrite lookup_delete. case_decide; [done|apply Hw].
  - destruct (Z.lt_ge_cases (t1 - startup_time w) startup_grace_period) as [Hg|Hg].
    + rewrite monitor_iteration_grace by done. apply Hw.
    + destruct (monitor_iteration_armed t1 t2 w Hg) as (_ & Hlp & _).
      rewrite Hlp. case_match; [done|apply Hw].
Qed.

Lemma init_inv t0 : reachable_inv t0 (init t0).
Proof.
  split.
  - done.
  - unfold registry_consistent. cbn. apply dom_empty_L.
  - intros c. cbn. by intros ?%not_elem_of_empty.
  - split; cbn; [done|lia].
Qed.

Lemma step_inv t0 e w : reachable_inv t0 w -> reachable_inv t0 (step e w).
Proof.
  intros [H1 H2 H3 H4]. split.
  - by rewrite step_startup_time.
  - by apply step_consistent.
  - by apply step_ids_truthy.
  - by apply step_exit_on_empty.
Qed.

Lemma run_inv t0 evs : reachable_inv t0 (run evs (init t0)).
Proof. apply run_invariant; [apply step_inv|apply init_inv]. Qed.

Lemma run_pings_from t0 evs :
  clock_from t0 evs -> pings_from t0 (run evs (init t0)).
Proof.
  unfold clock_from. revert evs. induction evs as [|e evs IH] using rev_ind.
  - intros _ c ls. cbn. by rewrite lookup_empty.
  - intros [Hevs [He _]%Forall_cons]%Forall_app. rewrite run_snoc.
    apply step_pings_from; [done|by apply IH].
Qed.

(** The loop of [monitor_connections] on its own is the execution made of
    its iterations. *)
Lemma monitor_connections_run clock : forall w,
  alive w = true ->
  snd (monitor_connections clock w) =
  run (map (fun p => Tick (fst p) (snd p)) clock) w.
Proof.
  induction clock as [|[t1 t2] clock IH]; intros w Ha; [done|].
  cbn [map]. rewrite run_cons. unfold step. rewrite Ha. cbn [fst snd].
  unfold monitor_connections in *. cbn [for_each]. unfold mbind, M_bind, bind.
  assert (Hnil : exit_calls w = []).
  { unfold alive in Ha. by destruct (exit_calls w). }
  destruct (monitor_iteration_outcome t1 t2 w) as [[Hr Hx]|[Hr Hx]];
    destruct (monitor_iteration t1 t2 w) as [o w1]; cbn in Hr, Hx; subst o.
  - cbn [snd]. apply IH. unfold alive. by rewrite Hx, Hnil.
  - cbn [snd]. rewrite run_dead; [done|]. unfold alive. by rewrite Hx, Hnil.
Qed.

End execution_facts.

(* ===================================================================== *)
(** ** The scenarios of the specification, run on the model *)
(* ===================================================================== *)

Section scenarios.

(** Scenario A: a connection after the grace period, then its
    disconnection; the next iteration exits. *)
Example scenario_A :
  let w := run [Tick 1062 1062; Signal (signal "connected" "X") 1063;
                Tick 1064 1064; Signal (signal "disconnected" "X") 1065;
                Tick 1066 1066] (init 1000) in
  size (active_connections w) = 0%nat /\ had_connections w = true /\
  exit_calls w = [0] /\
  stdout w = [StatusUpdateReceived (PyStr "connected") (PyStr "X");
              NewConnection (PyStr "X") 1;
              StatusUpdateReceived (PyStr "disconnected") (PyStr "X");
              ConnectionClosed (PyStr "X") 0;
              AllConnectionsClosed].
Proof. cbv zeta. repeat split; by vm_compute. Qed.

(** Scenario B: nobody ever connects. *)
Example scenario_B :
  exit_calls (snd (monitor_connections
                     [(1002, 1002); (1058, 1058); (1060, 1060); (1062, 1062);
                      (2000, 2000)] (init 1000))) = [].
Proof. by vm_compute. Qed.

(** Scenario C: two sessions, the last signal of either more than
    [connection_timeout] old at the sweep; both are removed, then the process
    exits. *)
Example scenario_C :
  let w := run [Signal (signal "connected" "A") 1061;
                Signal (signal "connected" "B") 1061; Tick 1062 1062;
                Signal (signal "hidden" "A") 1100; Tick 1400 1400;
                Tick 1402 1402] (init 1000) in
  active_connections w = ∅ /\ connection_last_ping w = ∅ /\
  exit_calls w = [0] /\ length (stdout w) = 9%nat.
Proof. cbv zeta. repeat split; by vm_compute. Qed.

(** Scenario D: one session that keeps pinging is never removed. *)
Example scenario_D :
  let w := run [Signal (signal "connected" "A") 1001; Tick 1062 1062;
                Signal (signal "ping" "A") 1300; Tick 1302 1302;
                Signal (signal "ping" "A") 1590; Tick 1600 1600] (init 1000) in
  elements (active_connections w) = [PyStr "A"] /\
  connection_last_ping w !! PyStr "A" = Some 1590 /\
  had_connections w = true /\ exit_calls w = [].
Proof. cbv zeta. repeat split; by vm_compute. Qed.

End scenarios.

(* ===================================================================== *)
(** ** The session flag and the shutdown decision *)
(* ===================================================================== *)

Section shutdown_controller.

(** C1, at the failing input: the first [connected] signal inserts a session
    and leaves [had_connections] false, where the claim has it set at once;
    and a session that opens and closes within the startup grace period is
    never recorded: the flag is still false after the iterations that follow
    the grace period, and the process stays up with no session left. *)
Lemma C1_flag_not_set_at_first_upsert :
  let w1 := run [Signal (signal "connected" "a") 1001] (init 1000) in
  let w2 := run [Signal (signal "connected" "a") 1001; Tick 1002 1002;
                 Signal (signal "disconnected" "a") 1003; Tick 1070 1070]
                (init 1000) in
  (PyStr "a" ∈ active_connections w1 /\ had_connections w1 = false) /\
  (had_connections w2 = false /\ exit_calls w2 = []).
Proof.
  cbv zeta. split; split.
  - apply (bool_decide_unpack _). by vm_compute.
  - by vm_compute.
  - by vm_compute.
  - by vm_compute.
Qed.

(** C2, as stated, fails: after the grace period, with [had_connections]
    true, the handler that removes the last session leaves the process
    running; no occupancy check runs in the handler. *)
Lemma C2_no_check_after_handler :
  let w := run [Signal (signal "connected" "a") 1061; Tick 1062 1062]
               (init 1000) in
  let w' := step (Signal (signal "disconnected" "a") 1063) w in
  (had_connections w = true /\
   startup_grace_period <= 1063 - startup_time w) /\
  (active_connections w' = ∅ /\ had_connections w' = true /\
   exit_calls w' = [] /\ alive w' = true).
Proof.
  cbv zeta. repeat split; by vm_compute.
Qed.

(** C2, amended: after the grace period every iteration of the monitor loop
    ends with the occupancy check, and when the registry is empty at that
    check (after the stale sessions are removed) and [had_connections] is
    true, the iteration calls [os._exit(0)]; the signal handler runs no check
    and never exits the process. *)
Theorem C2_check_on_monitor_iteration (w : world) :
  (forall data now,
     fst (handle_connection_status data now w) = Return no_update /\
     exit_calls (snd (handle_connection_status data now w)) = exit_calls w) /\
  (forall t_check now,
     startup_grace_period <= t_check - startup_time w ->
     had_connections w = true ->
     active_connections (snd (monitor_iteration t_check now w)) = ∅ ->
     fst (monitor_iteration t_check now w) = Exited /\
     exit_calls (snd (monitor_iteration t_check now w)) = exit_calls w ++ [0]).
Proof.
  split.
  - intros data now. split; [apply handler_returns|apply handler_frame].
  - intros t1 t2 Hg Hh He.
    destruct (monitor_iteration_armed t1 t2 w Hg) as (_ & _ & _ & _ & Hex & _).
    destruct (Hex He Hh) as (? & _ & ?). done.
Qed.

Lemma C2_check_on_monitor_iteration_witness :
  let w := run [Signal (signal "connected" "a") 1061; Tick 1062 1062;
                Signal (signal "disconnected" "a") 1063] (init 1000) in
  fst (monitor_iteration 1064 1064 w) = Exited /\
  exit_calls (snd (monitor_iteration 1064 1064 w)) = exit_calls w ++ [0].
Proof.
  cbv zeta. apply (proj2 (C2_check_on_monitor_iteration _) 1064 1064).
  - by vm_compute.
  - by vm_compute.
  - by vm_compute.
Defined.

(** Helper for C3: without a recorded session and with an empty registry at
    every state, nothing changes the flag or exits. *)
Lemma never_occupied_run evs : forall w,
  had_connections w = false ->
  exit_calls w = [] ->
  Forall (fun w' => active_connections w' = ∅) (trace evs w) ->
  had_connections (run evs w) = false /\ exit_calls (run evs w) = [].
Proof.
  induction evs as [|e evs IH]; intros w Hh Hx Htr; [done|].
  cbn in Htr. apply Forall_cons in Htr as [_ Htr]. rewrite run_cons.
  assert (He : active_connections (step e w) = ∅).
  { destruct evs; cbn in Htr; by apply Forall_cons in Htr as [? _]. }
  apply IH; [| |done].
  - unfold step in *. destruct (alive w); [|done]. destruct e as [data now|t1 t2].
    + by rewrite (proj1 (handler_frame data now w)).
    + destruct (Z.lt_ge_cases (t1 - startup_time w) startup_grace_period) as [Hg|Hg].
      * by rewrite monitor_iteration_grace.
      * destruct (monitor_iteration_armed t1 t2 w Hg) as (_ & _ & _ & _ & _ & Hno).
        by destruct (Hno He Hh) as (_ & ? & _).
  - unfold step in *. destruct (alive w); [|done]. destruct e as [data now|t1 t2].
    + destruct (handler_frame data now w) as (_ & _ & ->). done.
    + destruct (Z.lt_ge_cases (t1 - startup_time w) startup_grace_period) as [Hg|Hg].
      * by rewrite monitor_iteration_grace.
      * destruct (monitor_iteration_armed t1 t2 w Hg) as (_ & _ & _ & _ & _ & Hno).
        destruct (Hno He Hh) as (_ & _ & ->). done.
Qed.

(** C3: in every execution from process start in which the registry is empty
    at every state, [os._exit] is never called and [had_connections] stays
    false, however many loop iterations run after the grace period. *)
Theorem C3_no_shutdown_without_session (t0 : Z) (evs : list event) :
  Forall (fun w => active_connections w = ∅) (trace evs (init t0)) ->
  exit_calls (run evs (init t0)) = [] /\
  alive (run evs (init t0)) = true /\
  had_connections (run evs (init t0)) = false.
Proof.
  intros Htr.
  destruct (never_occupied_run evs (init t0) eq_refl eq_refl Htr) as [Hh Hx].
  unfold alive. by rewrite Hx.
Qed.

Lemma C3_no_shutdown_without_session_witness :
  exit_calls (run [Tick 1002 1002; Signal None 1003;
                   Signal (signal "disconnected" "a") 1004; Tick 1062 1062;
                   Tick 1064 1064; Tick 5000 5000] (init 1000)) = [].
Proof.
  apply C3_no_shutdown_without_session.
  cbn [trace]. repeat (apply Forall_cons; split; [by vm_compute|]).
  apply Forall_nil_2.
Defined.

End shutdown_controller.

(* ===================================================================== *)
(** ** Monotonicity of the flag and the exit action *)
(* ===================================================================== *)

Section exit_action.

(** C8: once [had_connections] is true at some point of an execution, it is
    true at every later point, whatever signals and loop iterations follow
    and whether or not the registry is empty in between. *)
Theorem C8_had_connections_monotone (t0 : Z) (evs evs' : list event) :
  had_connections (run evs (init t0)) = true ->
  had_connections (run (evs ++ evs') (init t0)) = true.
Proof.
  intros Hh. rewrite run_app. by apply run_had_connections.
Qed.

Lemma C8_had_connections_monotone_witness :
  had_connections
    (run ([Signal (signal "connected" "a") 1061; Tick 1062 1062] ++
          [Signal (signal "disconnected" "a") 1063;
           Signal (signal "ping" "") 1064; Tick 1066 1066])
         (init 1000)) = true.
Proof.
  apply C8_had_connections_monotone. by vm_compute.
Defined.

(** C9, as stated, fails: with [had_connections] true and the grace period
    over, the registry is drained by a [disconnected] signal and refilled
    before the next loop iteration; [os._exit] is not called, neither at the
    drain nor by the iterations that follow. *)
Lemma C9_drain_without_exit :
  let drained := run [Signal (signal "connected" "a") 1061; Tick 1062 1062;
                      Signal (signal "disconnected" "a") 1063] (init 1000) in
  let final := run [Signal (signal "connected" "b") 1063; Tick 1064 1064;
                    Signal (signal "ping" "b") 1065; Tick 1066 1066] drained in
  (active_connections drained = ∅ /\ had_connections drained = true /\
   startup_grace_period <= 1063 - startup_time drained) /\
  length (exit_calls final) = 0%nat.
Proof.
  cbv zeta. repeat split; by vm_compute.
Qed.

(** C9, amended: in every execution [os._exit] is called at most once; it is
    called, exactly once, as soon as a loop iteration that runs after the
    grace period finds [had_connections] true and the registry empty once the
    stale sessions are removed. A registry that is drained and refilled
    between two iterations causes no exit. *)
Theorem C9_exit_at_most_once (t0 : Z) (evs : list event) :
  (length (exit_calls (run evs (init t0))) <= 1)%nat /\
  (forall t_check now evs',
     let w := run evs (init t0) in
     alive w = true ->
     startup_grace_period <= t_check - t0 ->
     had_connections w = true ->
     (forall c, c ∈ active_connections w -> is_stale w now c = true) ->
     exit_calls (run (evs ++ Tick t_check now :: evs') (init t0)) = [0]).
Proof.
  split.
  { apply (run_inv t0 evs). }
  intros t1 t2 evs' w Ha Hg Hh Hall.
  rewrite run_app, run_cons. fold w.
  assert (Hst : startup_time w = t0) by apply run_startup_time.
  rewrite <- Hst in Hg.
  assert (Hx : exit_calls (step (Tick t1 t2) w) = [0]).
  { unfold step. rewrite Ha.
    destruct (monitor_iteration_armed t1 t2 w Hg) as (Hact & _ & _ & _ & Hex & _).
    destruct Hex as (_ & _ & ->); [|done|].
    - apply set_eq. intros c. rewrite Hact. split; [|by intros ?%not_elem_of_empty].
      intros [Hin Hs]. rewrite (Hall c Hin) in Hs. done.
    - unfold alive in Ha. by destruct (exit_calls w). }
  rewrite run_dead; [done|]. unfold alive. by rewrite Hx.
Qed.

Lemma C9_exit_at_most_once_witness :
  exit_calls
    (run ([Signal (signal "connected" "a") 1061; Tick 1062 1062;
           Signal (signal "disconnected" "a") 1063] ++
          Tick 1064 1064 :: [Tick 1066 1066; Signal (signal "ping" "a") 1067;
                             Tick 1068 1068]) (init 1000)) = [0].
Proof.
  apply (proj2 (C9_exit_at_most_once 1000 _) 1064 1064).
  - by vm_compute.
  - by vm_compute.
  - by vm_compute.
  - intros c Hc. exfalso. revert Hc.
    replace (active_connections _) with (∅ : gset pyval) by (by vm_compute).
    apply not_elem_of_empty.
Defined.

End exit_action.

(* ===================================================================== *)
(** ** The staleness sweep *)
(* ===================================================================== *)

Section staleness.

Lemma is_stale_lookup w t c ls :
  connection_last_ping w !! c = Some ls ->
  is_stale w t c = (0 <? ls) && (connection_timeout <? t - ls).
Proof. intros H. unfold is_stale. by rewrite H. Qed.

(** C4, as stated, fails in its bound. The loop sleeps [sweep_interval]
    seconds and then does its work, so two consecutive iterations read the
    clock at least [sweep_interval] apart, and possibly more. Here the
    iterations read 1301 and 1304: at 1301 the session, last seen at 1001, is
    not yet stale and is kept; it is removed only at 1304, which is more than
    [connection_timeout + sweep_interval] after it was last seen. *)
Lemma C4_removed_after_the_bound :
  let w := run [Signal (signal "connected" "a") 1001; Tick 1301 1301] (init 1000) in
  let w' := step (Tick 1304 1304) w in
  (PyStr "a" ∈ active_connections w /\
   connection_last_ping w !! PyStr "a" = Some 1001) /\
  sweep_interval <= 1304 - 1301 /\
  connection_timeout + sweep_interval < 1304 - 1001 /\
  PyStr "a" ∉ active_connections w'.
Proof.
  cbv zeta. split; [split|split; [|split]].
  - apply (bool_decide_unpack _). by vm_compute.
  - by vm_compute.
  - by vm_compute.
  - by vm_compute.
  - apply (bool_decide_unpack _). by vm_compute.
Qed.

(** C4, amended: take an execution from process start in which the clock
    reads a positive time at start and never reads less afterwards. At every
    iteration of the monitor loop, a session whose last recorded time [ls]
    satisfies [t - ls > connection_timeout], for [t] the clock reading of the
    iteration, is absent from both containers after the iteration; a session
    with [t - ls <= connection_timeout] is kept with its time. So a session
    is kept for at least [connection_timeout] after its last accepted signal
    and is removed by the first iteration that reads the clock more than
    [connection_timeout] after it. *)
Theorem C4_stale_sessions_reaped
    (t0 : Z) (evs : list event) (t_check now : Z) (c : pyval) (ls : Z) :
  0 < t0 ->
  clock_from t0 evs ->
  let w := run evs (init t0) in
  let w' := step (Tick t_check now) w in
  let t := tick_now w t_check now in
  connection_last_ping w !! c = Some ls ->
  c ∈ active_connections w /\
  (connection_timeout < t - ls ->
     (c ∉ active_connections w') /\ connection_last_ping w' !! c = None) /\
  (t - ls <= connection_timeout ->
     c ∈ active_connections w' /\ connection_last_ping w' !! c = Some ls).
Proof.
  intros Hpos Hclk w w' t Hls.
  destruct (run_inv t0 evs) as [Hst Hcons Htru [Hdead _]]. fold w in Hst, Hcons, Hdead.
  assert (Hfrom : t0 <= ls) by (by apply (run_pings_from t0 evs Hclk c)).
  assert (Hin : c ∈ active_connections w).
  { rewrite <- Hcons. apply elem_of_dom. by eexists. }
  assert (Ha : alive w = true).
  { destruct (alive w) eqn:E; [done|]. rewrite Hdead in Hin by done.
    by apply not_elem_of_empty in Hin. }
  split; [done|].
  subst w' t. unfold step, tick_now. rewrite Ha, Hst.
  destruct (Z.lt_ge_cases (t_check - t0) startup_grace_period) as [Hg|Hg].
  - rewrite (proj2 (Z.ltb_lt _ _) Hg).
    rewrite monitor_iteration_grace by (by rewrite Hst). cbn.
    unfold startup_grace_period, connection_timeout in *. split; [lia|done].
  - rewrite (proj2 (Z.ltb_ge _ _) Hg).
    rewrite <- Hst in Hg.
    destruct (monitor_iteration_armed t_check now w Hg) as (Hact & Hlp & _).
    rewrite Hact, Hlp, (bool_decide_eq_true_2 _ Hin), (is_stale_lookup _ _ _ _ Hls).
    split; intros Hlt.
    + rewrite (proj2 (Z.ltb_lt 0 ls)) by lia.
      rewrite (proj2 (Z.ltb_lt _ _) Hlt). cbn. split; [|done].
      intros [_ ?]. done.
    + rewrite (proj2 (Z.ltb_ge _ _) Hlt), andb_false_r. cbn. done.
Qed.

Lemma C4_stale_sessions_reaped_witness :
  PyStr "a" ∉
  active_connections
    (step (Tick 1302 1302)
       (run [Signal (signal "connected" "a") 1001; Tick 1300 1300] (init 1000))).
Proof.
  refine (proj1 (proj1 (proj2
    (C4_stale_sessions_reaped 1000
       [Signal (signal "connected" "a") 1001; Tick 1300 1300]
       1302 1302 (PyStr "a") 1001 _ _ _)) _)).
  - lia.
  - unfold clock_from. repeat constructor; lia.
  - by vm_compute.
  - by vm_compute.
Defined.

End staleness.

(* ===================================================================== *)
(** ** The heartbeat protocol *)
(* ===================================================================== *)

Section heartbeat.
Implicit Types (w : world) (c : pyval) (evs : list event).

Lemma count_in_NoDup c (l : list pyval) :
  NoDup l -> c ∈ l ->
  length (List.filter (fun x => bool_decide (x = c)) l) = 1%nat.
Proof.
  induction l as [|x l IH]; intros Hnd Hin; [by apply elem_of_nil in Hin|].
  apply NoDup_cons in Hnd as [Hx Hnd]. cbn.
  destruct (decide (x = c)) as [->|Hne].
  - rewrite bool_decide_eq_true_2 by done. cbn. f_equal.
    clear IH Hin Hnd. induction l as [|y l IH]; [done|].
    cbn. apply not_elem_of_cons in Hx as [Hy Hx].
    rewrite bool_decide_eq_false_2 by done. by apply IH.
  - rewrite bool_decide_eq_false_2 by done. apply IH; [done|].
    apply elem_of_cons in Hin as [->|Hin]; done.
Qed.

Lemma entry_count_tracked c w :
  c ∈ active_connections w -> entry_count c w = 1%nat.
Proof.
  intros Hin. apply count_in_NoDup; [apply NoDup_elements|].
  by apply elem_of_elements.
Qed.

(** One [connected] or [ping] signal for [c]. *)
Lemma keepalive_step c e w :
  alive w = true -> truthy c = true -> keepalive_for c e ->
  active_connections (step e w) = {[c]} ∪ active_connections w /\
  dom (connection_last_ping (step e w)) = {[c]} ∪ dom (connection_last_ping w) /\
  alive (step e w) = true.
Proof.
  intros Ha Ht Hk. unfold step. rewrite Ha.
  destruct e as [data now|]; [|done]. destruct Hk as [<- Hst].
  destruct (handler_upsert data now w) as [-> ->]; [|done|].
  { unfold refreshing. apply orb_true_iff in Hst as [->| ->]; [done|].
    by rewrite orb_true_r. }
  rewrite dom_insert_L. split; [done|]. split; [done|].
  unfold alive in *. by destruct (handler_frame data now w) as (_ & _ & ->).
Qed.

Lemma keepalive_run c evs : forall w,
  alive w = true -> truthy c = true -> Forall (keepalive_for c) evs ->
  let first := if decide (evs = []) then ∅ else {[c]} in
  active_connections (run evs w) = first ∪ active_connections w /\
  dom (connection_last_ping (run evs w)) = first ∪ dom (connection_last_ping w).
Proof.
  induction evs as [|e evs IH]; intros w Ha Ht Hall.
  - cbn. split; set_solver.
  - apply Forall_cons in Hall as [He Hall]. rewrite run_cons.
    destruct (keepalive_step c e w Ha Ht He) as (Hact & Hdom & Ha').
    destruct (IH (step e w) Ha' Ht Hall) as [-> ->]. rewrite Hact, Hdom.
    rewrite decide_False by done. destruct (decide (evs = [])); split; set_solver.
Qed.

(** C5: however many [connected] and [ping] signals for one id are handled in
    a row, the registry afterwards is the registry before plus that one id:
    the id is counted once in [active_connections], the set grows by at most
    one element, and the keys of [connection_last_ping] grow by that id only.
    A [disconnected] signal for an id that is not tracked changes nothing but
    the output: two log lines. *)
Theorem C5_resubmission_idempotent (w : world) (c : pyval) :
  (forall evs,
     alive w = true -> truthy c = true ->
     evs ≠ [] -> Forall (keepalive_for c) evs ->
     active_connections (run evs w) = {[c]} ∪ active_connections w /\
     dom (connection_last_ping (run evs w)) = {[c]} ∪ dom (connection_last_ping w) /\
     entry_count c (run evs w) = 1%nat /\
     (size (active_connections (run evs w)) <= S (size (active_connections w)))%nat) /\
  (forall data now,
     payload_get data "id" = c ->
     payload_get data "status" = PyStr "disconnected" ->
     c ∉ active_connections w ->
     fst (handle_connection_status data now w) = Return no_update /\
     snd (handle_connection_status data now w) =
     with_stdout (stdout w ++ [StatusUpdateReceived (PyStr "disconnected") c;
                               UnhandledStatus (PyStr "disconnected") c]) w).
Proof.
  split.
  - intros evs Ha Ht Hne Hall.
    destruct (keepalive_run c evs w Ha Ht Hall) as [Hact Hdom].
    rewrite decide_False in Hact, Hdom by done.
    split; [done|]. split; [done|]. split.
    + apply entry_count_tracked. rewrite Hact. set_solver.
    + rewrite Hact, size_union_alt, size_singleton.
      apply le_n_S, subseteq_size. set_solver.
  - intros data now Hid Hst Hout. split; [apply handler_returns|].
    rewrite handler_unhandled; rewrite ?Hid, ?Hst, ?eq_str_lit; try done.
    + by apply (payload_not_falsy data "status"); rewrite Hst.
    + by rewrite (bool_decide_eq_false_2 _ Hout).
Qed.

Lemma C5_resubmission_idempotent_witness :
  let w := run [Signal (signal "connected" "b") 1001] (init 1000) in
  let evs := [Signal (signal "connected" "a") 1002; Signal (signal "ping" "a") 1003;
              Signal (signal "connected" "a") 1004; Signal (signal "ping" "a") 1014] in
  entry_count (PyStr "a") (run evs w) = 1%nat /\
  snd (handle_connection_status (signal "disconnected" "a") 1005 w) =
  with_stdout (stdout w ++ [StatusUpdateReceived (PyStr "disconnected") (PyStr "a");
                            UnhandledStatus (PyStr "disconnected") (PyStr "a")]) w.
Proof.
  cbv zeta. split.
  - refine (proj1 (proj2 (proj2 (proj1 (C5_resubmission_idempotent _ (PyStr "a")) _ _ _ _ _)))).
    + by vm_compute.
    + by vm_compute.
    + done.
    + repeat constructor; by vm_compute.
  - refine (proj2 (proj2 (C5_resubmission_idempotent _ (PyStr "a")) _ 1005 _ _ _)).
    + by vm_compute.
    + by vm_compute.
    + apply (bool_decide_unpack _). by vm_compute.
Defined.

(** On payloads in the shape of the protocol: in every state reached from
    process start, a payload that is empty, or whose id is absent ([None]) or
    the empty string, or whose status is none of the four kinds, makes the
    callback print its rejection (the warning for an empty payload, otherwise
    the received line and the unhandled line), return [dash.no_update], and
    leave the two containers, the monitor's locals and the process
    untouched. *)
Lemma protocol_payload_rejected
    (t0 : Z) (evs : list event) (data : payload) (now : Z) :
  let w := run evs (init t0) in
  let c := payload_get data "id" in
  let st := payload_get data "status" in
  let r := handle_connection_status data now w in
  falsy_payload data = true \/ truthy c = false \/ recognized st = false ->
  fst r = Return no_update /\
  snd r = with_stdout (stdout w ++ if falsy_payload data then [WarnEmptyData]
                                   else [StatusUpdateReceived st c;
                                         UnhandledStatus st c]) w /\
  active_connections (snd r) = active_connections w /\
  connection_last_ping (snd r) = connection_last_ping w /\
  had_connections (snd r) = had_connections w /\
  startup_time (snd r) = startup_time w /\
  exit_calls (snd r) = exit_calls w.
Proof.
  intros w c st r Hbad. subst r.
  assert (Hsnd : snd (handle_connection_status data now w) =
    with_stdout (stdout w ++ if falsy_payload data then [WarnEmptyData]
                             else [StatusUpdateReceived st c;
                                   UnhandledStatus st c]) w).
  { destruct (falsy_payload data) eqn:Hf; [by apply handler_empty|].
    destruct Hbad as [Hbad|[Hbad|Hbad]]; [done| |].
    - fold c in Hbad. apply handler_unhandled; fold c st; rewrite ?Hbad, ?andb_false_r; try done.
      rewrite bool_decide_eq_false_2, andb_false_r; [done|].
      intros Hin. apply (inv_truthy _ _ (run_inv t0 evs)) in Hin. congruence.
    - unfold recognized in Hbad. fold st in Hbad.
      apply orb_false_iff in Hbad as [Hbad Hh].
      apply orb_false_iff in Hbad as [Hbad Hp].
      apply orb_false_iff in Hbad as [Hc Hd].
      apply handler_unhandled; fold c st; by rewrite ?Hc, ?Hd, ?Hp, ?Hh. }
  split; [apply handler_returns|]. split; [done|]. by rewrite Hsnd.
Qed.

Lemma json_field_elem_of (fields : list (string * json)) (key : string) (v : json) :
  NoDup fields.*1 -> json_field fields key = Some v <-> (key, v) ∈ fields.
Proof.
  revert v. induction fields as [|[k x] fields IH]; intros v Hnd; cbn.
  - split; [done|]. by intros ?%elem_of_nil.
  - apply NoDup_cons in Hnd as [Hk Hnd]. rewrite elem_of_cons.
    destruct (json_field fields key) as [v'|] eqn:E.
    + assert ((key, v') ∈ fields) as Hin by (by apply (IH v' Hnd)).
      split.
      * intros [= ->]. by right.
      * intros [[= -> ->]|Hv].
        -- destruct Hk. apply list_elem_of_fmap. by exists (k, v').
        -- by apply (IH v Hnd).
    + case_bool_decide as Hkey.
      * subst k. split; [intros [= ->]; by left|].
        intros [[= ->]|Hv]; [done|]. by apply (IH v Hnd) in Hv.
      * split; [done|]. intros [[= -> ->]|Hv]; [done|].
        by apply (IH v Hnd) in Hv.
Qed.

Lemma json_field_map_to_list (m : gmap string json) (key : string) :
  json_field (map_to_list m) key = m !! key.
Proof.
  pose proof (NoDup_fst_map_to_list m) as Hnd.
  destruct (m !! key) as [v|] eqn:E.
  - apply json_field_elem_of; [done|]. by apply elem_of_map_to_list.
  - destruct (json_field (map_to_list m) key) as [v|] eqn:F; [|done].
    apply json_field_elem_of in F; [|done].
    apply elem_of_map_to_list in F. congruence.
Qed.

(** On a payload in the shape of the protocol, [read_signal] makes the test
    and the two reads with which [handle_connection_status] begins. *)
Lemma read_signal_payload (data : payload) (w : world) :
  read_signal (json_of_payload data) w =
  if falsy_payload data then
    (Return None, with_stdout (stdout w ++ [WarnEmptyData]) w)
  else
    (Return (Some (json_of_pyval (payload_get data "id"),
                   json_of_pyval (payload_get data "status"))), w).
Proof.
  destruct data as [d|]; [|done]. unfold read_signal. cbn [json_of_payload falsy_payload].
  assert (Hempty : json_truthy (JObject (map_to_list (json_of_pyval <$> d))) =
                   negb (bool_decide (d = ∅))).
  { cbn. case_bool_decide as Hd.
    - subst d. by rewrite fmap_empty, map_to_list_empty.
    - destruct (map_to_list (json_of_pyval <$> d)) eqn:E; [|done].
      apply map_to_list_empty_iff, fmap_empty_iff in E. done. }
  rewrite Hempty. case_bool_decide as Hd; [done|]. cbn [negb].
  unfold json_get, mbind, M_bind, bind, ret. cbn.
  rewrite !json_field_map_to_list, !lookup_fmap.
  by destruct (d !! "id") as [[]|], (d !! "status") as [[]|].
Qed.

(** C6, at the failing input: a store content that is truthy and not a
    dictionary (a non-empty string or list, a number other than 0, [True])
    has no [get], so the callback raises [AttributeError] at its first read,
    before it prints anything and without touching the state; the exception
    leaves the callback, where the claim has the signal rejected with a log
    line and no error. *)
Theorem C6_non_dict_payload_raises (data : json) (w : world) :
  json_truthy data = true ->
  (forall fields, data ≠ JObject fields) ->
  read_signal data w = (Raise AttributeError, w).
Proof.
  intros Ht Hobj. unfold read_signal. rewrite Ht. cbn [negb].
  destruct data; try done. by destruct (Hobj fields).
Qed.

Lemma C6_non_dict_payload_raises_witness :
  read_signal (JString "ping") (init 1000) = (Raise AttributeError, init 1000) /\
  read_signal (JArray [JString "a"; JString "connected"]) (init 1000) =
  (Raise AttributeError, init 1000).
Proof.
  split; apply C6_non_dict_payload_raises; done.
Defined.

(** C7: a [ping] or [hidden] signal with a non-empty id records the id with
    time [now], whether or not it was tracked: afterwards the id is tracked
    and its last-ping time is [now]; the callback returns normally; and no
    session, the signalling one included, is removed. *)
Theorem C7_ping_hidden_upsert (data : payload) (now : Z) (w : world) :
  let c := payload_get data "id" in
  let st := payload_get data "status" in
  let r := handle_connection_status data now w in
  st = PyStr "ping" \/ st = PyStr "hidden" ->
  truthy c = true ->
  fst r = Return no_update /\
  active_connections (snd r) = {[c]} ∪ active_connections w /\
  connection_last_ping (snd r) = <[c := now]> (connection_last_ping w) /\
  c ∈ active_connections (snd r) /\
  connection_last_ping (snd r) !! c = Some now /\
  active_connections w ⊆ active_connections (snd r).
Proof.
  intros c st r Hst Ht. subst r.
  destruct (handler_upsert data now w) as [Hact Hlp]; [|done|].
  { fold st. unfold refreshing. destruct Hst as [-> | ->]; by rewrite !eq_str_lit. }
  fold c in Hact, Hlp. rewrite Hact, Hlp.
  split; [apply handler_returns|]. split; [done|]. split; [done|].
  split; [set_solver|]. split; [apply lookup_insert_eq|set_solver].
Qed.

Lemma C7_ping_hidden_upsert_witness :
  PyStr "a" ∈ active_connections
    (snd (handle_connection_status (signal "hidden" "a") 1005 (init 1000))) /\
  connection_last_ping
    (snd (handle_connection_status (signal "ping" "a") 1010
       (run [Signal (signal "connected" "a") 1001] (init 1000)))) !! PyStr "a"
  = Some 1010.
Proof.
  split.
  - refine (proj1 (proj2 (proj2 (proj2
      (C7_ping_hidden_upsert (signal "hidden" "a") 1005 (init 1000) _ _))))).
    + right. by vm_compute.
    + by vm_compute.
  - refine (proj1 (proj2 (proj2 (proj2 (proj2
      (C7_ping_hidden_upsert (signal "ping" "a") 1010 _ _ _)))))).
    + left. by vm_compute.
    + by vm_compute.
Defined.

End heartbeat.

(* ===================================================================== *)
(** ** Consistency of the two containers *)
(* ===================================================================== *)

Section consistency.

Lemma for_each_app {A} (l1 l2 : list A) (body : A -> M unit) (w : world) :
  for_each (l1 ++ l2) body w = (for_each l1 body ;; for_each l2 body) w.
Proof.
  revert w. induction l1 as [|x l1 IH]; intros w; cbn.
  - done.
  - unfold mbind, M_bind, bind in *. destruct (body x w) as [[u| |] w1]; [|done|done].
    apply IH.
Qed.

(** Every prefix of the removal loop leaves the containers consistent. *)
Lemma evict_prefix_consistent w t k :
  registry_consistent w ->
  registry_consistent (snd (for_each (take k (stale_connections w t)) evict w)).
Proof.
  unfold registry_consistent. intros Hc.
  destruct (for_each_evict (take k (stale_connections w t)) w)
    as (w' & -> & Hact & Hlp & _).
  { apply (sublist_NoDup _ _ (NoDup_stale_connections w t)), sublist_take. }
  { intros c Hin. apply (subseteq_take k) in Hin.
    by apply elem_of_stale_connections in Hin as [? _]. }
  cbn. apply set_eq. intros c.
  rewrite elem_of_dom, Hlp, Hact, elem_of_difference, elem_of_list_to_set, <- Hc, elem_of_dom.
  case_bool_decide; split; try tauto.
  intros [? ?]. done.
Qed.

(** C10: at process start and in every state reached afterwards, the keys of
    [connection_last_ping] are exactly the elements of [active_connections];
    from such a state this still holds after a handler call, whichever branch
    it takes, after each removal of the loop over the stale sessions, and
    after a whole iteration of the monitor loop. *)
Theorem C10_registry_consistent (t0 : Z) (evs : list event) :
  let w := run evs (init t0) in
  registry_consistent (init t0) /\
  registry_consistent w /\
  (forall data now,
     registry_consistent (snd (handle_connection_status data now w))) /\
  (forall t k,
     registry_consistent (snd (for_each (take k (stale_connections w t)) evict w))) /\
  (forall t_check now,
     registry_consistent (snd (monitor_iteration t_check now w))).
Proof.
  intros w. pose proof (inv_consistent _ _ (run_inv t0 evs)) as Hw. fold w in Hw.
  split; [apply (inv_consistent _ _ (init_inv t0))|]. split; [done|].
  split; [|split].
  - intros data now. by apply handler_consistent.
  - intros t k. by apply evict_prefix_consistent.
  - intros t1 t2. by apply monitor_consistent.
Qed.

End consistency.

(* ===================================================================== *)
(** ** Further laws of the tracker *)
(* ===================================================================== *)

Section tracker_laws.
Implicit Types (w : world) (c : pyval) (evs : list event) (data : payload).

(** The handler acts on the containers as [registry_effect] says. *)
Lemma handler_registry data now w :
  registry (snd (handle_connection_status data now w)) =
  registry_effect data now (registry w).
Proof.
  unfold registry, registry_effect. cbn [fst snd].
  destruct (refreshing (payload_get data "status") && truthy (payload_get data "id")) eqn:Hup.
  { apply andb_true_iff in Hup as [Hr Ht].
    by destruct (handler_upsert data now w Hr Ht) as [-> ->]. }
  destruct (eq_str (payload_get data "status") "disconnected"
            && bool_decide (payload_get data "id" ∈ active_connections w)) eqn:Hrm.
  { apply andb_true_iff in Hrm as [Hs Hin].
    apply eq_str_true in Hs. apply bool_decide_eq_true in Hin.
    by destruct (handler_remove data now w Hs Hin) as [-> ->]. }
  destruct (falsy_payload data) eqn:Hf.
  { by rewrite handler_empty. }
  rewrite handler_unhandled; try done.
  all: unfold refreshing in Hup;
    destruct (truthy (payload_get data "id"));
    rewrite ?andb_false_r, ?andb_true_r in *; try done;
    repeat (apply orb_false_iff in Hup as [Hup ?]); done.
Qed.

(** X1: the monitor loop never raises, for any number of iterations and from
    any state of the two containers, consistent or not: the [remove] of the
    sweep always finds its key. Each iteration returns or ends the process. *)
Theorem X1_monitor_never_raises (clock : list (Z * Z)) (w : world) (e : exn) :
  fst (monitor_connections clock w) ≠ Raise e.
Proof.
  revert w. induction clock as [|[t1 t2] clock IH]; intros w; [done|].
  unfold monitor_connections in *. cbn [for_each]. unfold mbind, M_bind, bind.
  destruct (monitor_iteration_outcome t1 t2 w) as [[Hr _]|[Hr _]];
    destruct (monitor_iteration t1 t2 w) as [o w1]; cbn in Hr; subst o.
  - apply IH.
  - done.
Qed.

(** X2: a session that is registered and then disconnected leaves no trace in
    the containers: for an untracked, non-empty id, a [connected], [ping] or
    [hidden] signal followed by [disconnected] for the same id gives back the
    set and the dictionary as they were. *)
Theorem X2_register_disconnect_round_trip
    (w : world) (c : pyval) (d_in d_out : payload) (t_in t_out : Z) :
  truthy c = true ->
  c ∉ active_connections w ->
  connection_last_ping w !! c = None ->
  payload_get d_in "id" = c ->
  refreshing (payload_get d_in "status") = true ->
  payload_get d_out "id" = c ->
  payload_get d_out "status" = PyStr "disconnected" ->
  registry (snd (handle_connection_status d_out t_out
                   (snd (handle_connection_status d_in t_in w)))) =
  registry w.
Proof.
  intros Ht Hout Hlp Hi1 Hs1 Hi2 Hs2.
  rewrite !handler_registry. unfold registry_effect at 2.
  rewrite Hi1, Hs1, Ht. cbn [andb fst snd].
  unfold registry_effect. rewrite Hi2, Hs2. cbn [fst snd].
  replace (refreshing (PyStr "disconnected")) with false by (by vm_compute).
  rewrite eq_str_lit. cbn [andb].
  rewrite bool_decide_eq_true_2 by done.
  rewrite bool_decide_eq_true_2 by set_solver.
  unfold registry. f_equal.
  - set_solver.
  - by rewrite delete_insert_eq, delete_id.
Qed.

Lemma X2_register_disconnect_round_trip_witness :
  let w := run [Signal (signal "connected" "b") 1001] (init 1000) in
  registry (snd (handle_connection_status (signal "disconnected" "a") 1020
                   (snd (handle_connection_status (signal "hidden" "a") 1010 w)))) =
  registry w.
Proof.
  cbv zeta. apply (X2_register_disconnect_round_trip _ (PyStr "a")).
  - by vm_compute.
  - apply (bool_decide_unpack _). by vm_compute.
  - by vm_compute.
  - by vm_compute.
  - by vm_compute.
  - by vm_compute.
  - by vm_compute.
Defined.

Lemma registry_effect_commute d1 t1 d2 t2 reg :
  payload_get d1 "id" ≠ payload_get d2 "id" ->
  registry_effect d1 t1 (registry_effect d2 t2 reg) =
  registry_effect d2 t2 (registry_effect d1 t1 reg).
Proof.
  intros Hne. destruct reg as [A L]. unfold registry_effect. cbn [fst snd].
  set (c1 := payload_get d1 "id") in *. set (c2 := payload_get d2 "id") in *.
  destruct (refreshing (payload_get d1 "status") && truthy c1);
    destruct (refreshing (payload_get d2 "status") && truthy c2);
    cbn [fst snd].
  - f_equal; [set_solver|]. by apply insert_insert_ne.
  - rewrite (bool_decide_ext (c2 ∈ {[c1]} ∪ A) (c2 ∈ A)) by set_solver.
    destruct (eq_str (payload_get d2 "status") "disconnected" && bool_decide (c2 ∈ A));
      cbn [fst snd]; [|done].
    f_equal; [set_solver|]. by rewrite delete_insert_ne.
  - rewrite (bool_decide_ext (c1 ∈ {[c2]} ∪ A) (c1 ∈ A)) by set_solver.
    destruct (eq_str (payload_get d1 "status") "disconnected" && bool_decide (c1 ∈ A));
      cbn [fst snd]; [|done].
    f_equal; [set_solver|]. by rewrite delete_insert_ne.
  - destruct (eq_str (payload_get d1 "status") "disconnected" && bool_decide (c1 ∈ A)) eqn:E1;
      destruct (eq_str (payload_get d2 "status") "disconnected" && bool_decide (c2 ∈ A)) eqn:E2;
      cbn [fst snd];
      rewrite ?(bool_decide_ext (c1 ∈ A ∖ {[c2]}) (c1 ∈ A)) by set_solver;
      rewrite ?(bool_decide_ext (c2 ∈ A ∖ {[c1]}) (c2 ∈ A)) by set_solver;
      rewrite ?E1, ?E2; cbn [fst snd]; try done.
    f_equal; [set_solver|]. apply delete_delete.
Qed.

(** X3: signals of different sessions do not interfere: handling two payloads
    with different ids in either order leaves the same set and the same
    dictionary (the two outputs differ in the order of their lines and in the
    counts they show). *)
Theorem X3_signals_of_distinct_ids_commute
    (w : world) (d1 d2 : payload) (t1 t2 : Z) :
  payload_get d1 "id" ≠ payload_get d2 "id" ->
  registry (snd (handle_connection_status d2 t2
                   (snd (handle_connection_status d1 t1 w)))) =
  registry (snd (handle_connection_status d1 t1
                   (snd (handle_connection_status d2 t2 w)))).
Proof.
  intros Hne. rewrite !handler_registry. symmetry. by apply registry_effect_commute.
Qed.

Lemma X3_signals_of_distinct_ids_commute_witness :
  let w := run [Signal (signal "connected" "a") 1001] (init 1000) in
  registry (snd (handle_connection_status (signal "ping" "b") 1003
                   (snd (handle_connection_status (signal "disconnected" "a") 1002 w)))) =
  registry (snd (handle_connection_status (signal "disconnected" "a") 1002
                   (snd (handle_connection_status (signal "ping" "b") 1003 w)))).
Proof.
  cbv zeta. apply X3_signals_of_distinct_ids_commute. by vm_compute.
Defined.

Lemma is_stale_earlier w t now c :
  t <= now -> is_stale w t c = true -> is_stale w now c = true.
Proof.
  unfold is_stale. intros Hle [Hpos Hlt%Z.ltb_lt]%andb_true_iff.
  rewrite Hpos. cbn. apply Z.ltb_lt. lia.
Qed.

(** X4: a sweep is complete and only removes. After an iteration that runs
    past the grace period with [current_time = now], no tracked session is
    stale at [now] or at any earlier time, so a second sweep at that time
    would remove nothing; the sessions left were tracked before and keep their
    recorded times. *)
Theorem X4_sweep_leaves_no_stale (w : world) (t_check now t : Z) :
  startup_grace_period <= t_check - startup_time w ->
  t <= now ->
  let w' := snd (monitor_iteration t_check now w) in
  stale_connections w' t = [] /\
  active_connections w' ⊆ active_connections w /\
  (forall c, c ∈ active_connections w' ->
             connection_last_ping w' !! c = connection_last_ping w !! c).
Proof.
  intros Hg Hle w'.
  destruct (monitor_iteration_armed t_check now w Hg) as (Hact & Hlp & _).
  fold w' in Hact, Hlp.
  assert (Hkeep : forall c, c ∈ active_connections w' ->
            connection_last_ping w' !! c = connection_last_ping w !! c).
  { intros c [_ Hs]%Hact. by rewrite Hlp, Hs, andb_false_r. }
  split; [|split; [|done]].
  - apply elem_of_nil_inv. intros c [Hin Hs]%elem_of_stale_connections.
    pose proof (Hkeep c Hin) as Hsame. apply Hact in Hin as [_ Hns].
    assert (is_stale w t c = true) as Hst.
    { unfold is_stale in *. by rewrite <- Hsame. }
    apply (is_stale_earlier w t now c Hle) in Hst. congruence.
  - intros c [? _]%Hact. done.
Qed.

Lemma X4_sweep_leaves_no_stale_witness :
  stale_connections
    (snd (monitor_iteration 1400 1400
       (run [Signal (signal "connected" "a") 1001;
             Signal (signal "connected" "b") 1200] (init 1000)))) 1400 = [].
Proof.
  refine (proj1 (X4_sweep_leaves_no_stale _ 1400 1400 1400 _ _)).
  - by vm_compute.
  - lia.
Defined.

(** The output of the removal loop. *)
Lemma for_each_evict_stdout (l : list pyval) : forall w,
  NoDup l ->
  (forall c, c ∈ l -> c ∈ active_connections w) ->
  stdout (snd (for_each l evict w)) =
  stdout w ++ eviction_lines (size (active_connections w)) l.
Proof.
  induction l as [|x l IH]; intros w Hnd Hin.
  - cbn. by rewrite app_nil_r.
  - apply NoDup_cons in Hnd as [Hx Hnd].
    assert (Hxw : x ∈ active_connections w) by (apply Hin; left).
    cbn [for_each]. unfold mbind, M_bind, bind.
    rewrite (evict_tracked _ _ Hxw). rewrite IH; [|done|].
    + cbn [stdout active_connections]. rewrite <- app_assoc. f_equal.
      unfold eviction_lines. rewrite imap_cons. cbn [app].
      assert (Hsz : size (active_connections w ∖ {[x]}) =
                    (size (active_connections w) - 1)%nat).
      { rewrite size_difference by set_solver. by rewrite size_singleton. }
      rewrite Hsz. f_equal. apply imap_ext. intros i c _. cbn. f_equal. lia.
    + intros c Hc. cbn. apply elem_of_difference. split; [apply Hin; by right|].
      intros ->%elem_of_singleton. done.
Qed.

(** The output of an iteration after the grace period, and the count of the
    sessions it removes. *)
Lemma monitor_iteration_log t_check now w :
  startup_grace_period <= t_check - startup_time w ->
  let w' := snd (monitor_iteration t_check now w) in
  stdout w' =
    stdout w
    ++ eviction_lines (size (active_connections w)) (stale_connections w now)
    ++ (if bool_decide (active_connections w' = ∅) && had_connections w
        then [AllConnectionsClosed] else []) /\
  (size (active_connections w') + length (stale_connections w now) =
   size (active_connections w))%nat.
Proof.
  intros Hg w'. subst w'. unfold monitor_iteration.
  rewrite (proj2 (Z.ltb_ge _ _) Hg).
  pose proof (NoDup_stale_connections w now) as Hnd.
  assert (Hsub : forall c, c ∈ stale_connections w now -> c ∈ active_connections w).
  { intros c. rewrite elem_of_stale_connections. tauto. }
  pose proof (for_each_evict_stdout _ w Hnd Hsub) as Hout.
  destruct (for_each_evict _ w Hnd Hsub) as (w1 & Hrun & Hact & _ & _ & Hhad & _).
  rewrite Hrun in Hout. cbn [snd] in Hout.
  unfold mbind, M_bind, bind, remove_stale_connections. rewrite Hrun.
  assert (Hsize : (size (active_connections w1) + length (stale_connections w now) =
                   size (active_connections w))%nat).
  { rewrite Hact, size_difference.
    - rewrite size_list_to_set by done.
      assert (length (stale_connections w now) <= size (active_connections w))%nat; [|lia].
      rewrite <- (size_list_to_set (C:=gset pyval)) by done.
      apply subseteq_size. intros c ?%elem_of_list_to_set. by apply Hsub.
    - intros c ?%elem_of_list_to_set. by apply Hsub. }
  unfold shutdown_check, set_had_connections, mbind, M_bind, bind, print, os_exit, ret.
  case_bool_decide as Hne; cbn.
  - rewrite bool_decide_eq_false_2 by done. cbn. by rewrite app_nil_r.
  - rewrite <- Hhad. destruct (had_connections w1); cbn.
    + rewrite (bool_decide_eq_true_2 _ Hne). cbn.
      by rewrite Hout, <- app_assoc.
    + by rewrite andb_false_r, app_nil_r.
Qed.

(** X5: the output of the monitor. During the grace period an iteration
    prints nothing; afterwards it prints one removal line for each stale
    session, in the order of removal, each with the number of sessions left
    after that removal, and then the shutdown line exactly when it ends the
    process. The number of removal lines is the number of sessions that left
    the set. *)
Theorem X5_monitor_output (w : world) (t_check now : Z) :
  let w' := snd (monitor_iteration t_check now w) in
  (t_check - startup_time w < startup_grace_period -> stdout w' = stdout w) /\
  (startup_grace_period <= t_check - startup_time w ->
   stdout w' =
     stdout w
     ++ eviction_lines (size (active_connections w)) (stale_connections w now)
     ++ (if bool_decide (active_connections w' = ∅) && had_connections w
         then [AllConnectionsClosed] else []) /\
   (size (active_connections w') + length (stale_connections w now) =
    size (active_connections w))%nat).
Proof.
  intros w'. split.
  - intros Hg. subst w'. by rewrite monitor_iteration_grace.
  - intros Hg. by apply monitor_iteration_log.
Qed.

Lemma X5_monitor_output_witness :
  let w := run [Signal (signal "connected" "a") 1001;
                Signal (signal "connected" "b") 1200] (init 1000) in
  (size (active_connections (snd (monitor_iteration 1400 1400 w)))
   + length (stale_connections w 1400) = size (active_connections w))%nat.
Proof.
  cbv zeta. refine (proj2 (proj2 (X5_monitor_output _ 1400 1400) _)).
  by vm_compute.
Defined.

(** X6: the process is never shut down early. In an execution from process
    start, if [os._exit] has been called then it was called with code 0, by an
    iteration that ran after the grace period; the set and the dictionary are
    empty and [had_connections] is true. In particular no exit happens while
    a session is tracked or while all iterations fall within the grace
    period. *)
Theorem X6_exit_only_when_drained (t0 : Z) (evs : list event) :
  let w := run evs (init t0) in
  exit_calls w ≠ [] ->
  exit_calls w = [0] /\
  active_connections w = ∅ /\
  connection_last_ping w = ∅ /\
  had_connections w = true /\
  exists t_check now,
    Tick t_check now ∈ evs /\ startup_grace_period <= t_check - t0.
Proof.
  induction evs as [|e evs IH] using rev_ind; intros w Hx; [done|].
  subst w. rewrite run_snoc in *. set (w0 := run evs (init t0)) in *.
  destruct (alive w0) eqn:Ha.
  2:{ rewrite step_dead in * by done.
      destruct (IH Hx) as (? & ? & ? & ? & t1 & t2 & Hin & Hg).
      repeat (split; [done|]). exists t1, t2. split; [|done].
      apply elem_of_app. by left. }
  assert (Hnil : exit_calls w0 = []).
  { unfold alive in Ha. by destruct (exit_calls w0). }
  clear IH. unfold step in *. rewrite Ha in *. destruct e as [data now|t1 t2].
  { destruct (handler_frame data now w0) as (_ & _ & Hsame). congruence. }
  destruct (Z.lt_ge_cases (t1 - startup_time w0) startup_grace_period) as [Hg|Hg].
  { rewrite monitor_iteration_grace in Hx by done. done. }
  destruct (monitor_iteration_armed t1 t2 w0 Hg) as (_ & _ & _ & Hne & Hex & Hno).
  pose proof (monitor_consistent t1 t2 w0 (inv_consistent _ _ (run_inv t0 evs))) as Hcons.
  set (w' := snd (monitor_iteration t1 t2 w0)) in *.
  destruct (decide (active_connections w' = ∅)) as [He|He].
  2:{ destruct (Hne He) as (_ & _ & Hsame). congruence. }
  destruct (had_connections w0) eqn:Hh.
  2:{ destruct (Hno He eq_refl) as (_ & _ & Hsame). congruence. }
  destruct (Hex He eq_refl) as (_ & Hhad & Hcalls).
  split; [by rewrite Hcalls, Hnil|]. split; [done|]. split.
  { apply dom_empty_inv_L. by rewrite Hcons. }
  split; [done|].
  exists t1, t2. split.
  - apply elem_of_app. right. by apply list_elem_of_singleton.
  - pose proof (run_startup_time evs (init t0)) as Hst. cbn in Hst.
    fold w0 in Hst. by rewrite <- Hst.
Qed.

Lemma X6_exit_only_when_drained_witness :
  active_connections
    (run [Signal (signal "connected" "a") 1061; Tick 1062 1062;
          Signal (signal "disconnected" "a") 1063; Tick 1064 1064;
          Signal (signal "connected" "b") 1065] (init 1000)) = ∅.
Proof.
  refine (proj1 (proj2 (X6_exit_only_when_drained 1000 _ _))).
  by vm_compute.
Defined.

(** Where a recorded time comes from. *)
Lemma last_ping_provenance t0 evs c ls :
  connection_last_ping (run evs (init t0)) !! c = Some ls ->
  exists data,
    Signal data ls ∈ evs /\
    payload_get data "id" = c /\
    refreshing (payload_get data "status") = true /\
    truthy c = true.
Proof.
  induction evs as [|e evs IH] using rev_ind; [done|].
  rewrite run_snoc. set (w0 := run evs (init t0)) in *. intros Hl.
  assert (Hold : connection_last_ping w0 !! c = Some ls ->
    exists data, Signal data ls ∈ evs ++ [e] /\ payload_get data "id" = c /\
      refreshing (payload_get data "status") = true /\ truthy c = true).
  { intros (data & Hin & ?)%IH. exists data. split; [|done].
    apply elem_of_app. by left. }
  unfold step in Hl. destruct (alive w0); [|by apply Hold].
  destruct e as [data now|t1 t2].
  - pose proof (handler_registry data now w0) as Hreg.
    unfold registry, registry_effect in Hreg. cbn [fst snd] in Hreg.
    destruct (refreshing (payload_get data "status") && truthy (payload_get data "id")) eqn:Hup.
    + injection Hreg as _ Hlp. rewrite Hlp, lookup_insert in Hl.
      case_decide as Hc; [|by apply Hold]. injection Hl as <-. subst c.
      apply andb_true_iff in Hup as [? ?]. exists data. split; [|done].
      apply elem_of_app. right. by apply list_elem_of_singleton.
    + destruct (eq_str (payload_get data "status") "disconnected"
                && bool_decide (payload_get data "id" ∈ active_connections w0)).
      * injection Hreg as _ Hlp. rewrite Hlp, lookup_delete in Hl.
        case_decide; [done|by apply Hold].
      * injection Hreg as _ Hlp. rewrite Hlp in Hl. by apply Hold.
  - destruct (Z.lt_ge_cases (t1 - startup_time w0) startup_grace_period) as [Hg|Hg].
    + rewrite monitor_iteration_grace in Hl by done. by apply Hold.
    + destruct (monitor_iteration_armed t1 t2 w0 Hg) as (_ & Hlp & _).
      rewrite Hlp in Hl. case_match; [done|by apply Hold].
Qed.

(** X7: nothing is tracked without a signal. In an execution from process
    start, every tracked id has a recorded time, and every recorded time is
    the clock reading of a handled [connected], [ping] or [hidden] signal
    that carried this id, a non-empty one. *)
Theorem X7_tracked_sessions_come_from_signals
    (t0 : Z) (evs : list event) (c : pyval) :
  c ∈ active_connections (run evs (init t0)) ->
  exists data ls,
    connection_last_ping (run evs (init t0)) !! c = Some ls /\
    Signal data ls ∈ evs /\
    payload_get data "id" = c /\
    refreshing (payload_get data "status") = true /\
    truthy c = true.
Proof.
  intros Hin. rewrite <- (inv_consistent _ _ (run_inv t0 evs)) in Hin.
  apply elem_of_dom in Hin as [ls Hls].
  destruct (last_ping_provenance t0 evs c ls Hls) as (data & ?).
  by exists data, ls.
Qed.

Lemma X7_tracked_sessions_come_from_signals_witness :
  exists data ls,
    connection_last_ping
      (run [Signal (signal "ping" "a") 1001; Tick 1062 1062] (init 1000))
      !! PyStr "a" = Some ls /\
    Signal data ls ∈ [Signal (signal "ping" "a") 1001; Tick 1062 1062] /\
    payload_get data "id" = PyStr "a" /\
    refreshing (payload_get data "status") = true /\
    truthy (PyStr "a") = true.
Proof.
  apply X7_tracked_sessions_come_from_signals.
  apply (bool_decide_unpack _). by vm_compute.
Defined.

(** X8: recorded times only move forward when the clock does. If the clock
    reading of a handler call is not below the readings of the handler calls
    before it, the call does not lower the recorded time of any session; an
    iteration of the monitor never changes the time of a session it keeps. *)
Theorem X8_last_ping_moves_forward
    (t0 : Z) (evs : list event) (e : event) (c : pyval) (ls ls' : Z) :
  (forall data now, e = Signal data now ->
     forall data' t, Signal data' t ∈ evs -> t <= now) ->
  connection_last_ping (run evs (init t0)) !! c = Some ls ->
  connection_last_ping (step e (run evs (init t0))) !! c = Some ls' ->
  ls <= ls'.
Proof.
  intros Hmono Hls Hls'.
  destruct (last_ping_provenance t0 evs c ls Hls) as (d0 & Hin & _).
  set (w0 := run evs (init t0)) in *.
  unfold step in Hls'. destruct (alive w0).
  2:{ rewrite Hls in Hls'. injection Hls' as <-. lia. }
  destruct e as [data now|t1 t2].
  - specialize (Hmono data now eq_refl d0 ls Hin).
    pose proof (handler_registry data now w0) as Hreg.
    unfold registry, registry_effect in Hreg. cbn [fst snd] in Hreg.
    destruct (refreshing (payload_get data "status") && truthy (payload_get data "id")).
    + injection Hreg as _ Hlp. rewrite Hlp, lookup_insert in Hls'.
      case_decide; [by injection Hls' as <-|].
      rewrite Hls in Hls'. injection Hls' as <-. lia.
    + destruct (eq_str (payload_get data "status") "disconnected"
                && bool_decide (payload_get data "id" ∈ active_connections w0)).
      * injection Hreg as _ Hlp. rewrite Hlp, lookup_delete in Hls'.
        case_decide; [done|]. rewrite Hls in Hls'. injection Hls' as <-. lia.
      * injection Hreg as _ Hlp. rewrite Hlp, Hls in Hls'. injection Hls' as <-. lia.
  - destruct (Z.lt_ge_cases (t1 - startup_time w0) startup_grace_period) as [Hg|Hg].
    + rewrite monitor_iteration_grace in Hls' by done. cbn in Hls'.
      rewrite Hls in Hls'. injection Hls' as <-. lia.
    + destruct (monitor_iteration_armed t1 t2 w0 Hg) as (_ & Hlp & _).
      rewrite Hlp in Hls'. case_match; [done|].
      rewrite Hls in Hls'. injection Hls' as <-. lia.
Qed.

Lemma X8_last_ping_moves_forward_witness :
  1001 <= 1010.
Proof.
  apply (X8_last_ping_moves_forward 1000
           [Signal (signal "connected" "a") 1001; Signal (signal "ping" "b") 1005]
           (Signal (signal "hidden" "a") 1010) (PyStr "a")).
  - intros data now Heq data' t Hin. injection Heq as _ <-.
    apply elem_of_cons in Hin as [Hin|Hin]; [injection Hin as _ ->; lia|].
    apply elem_of_cons in Hin as [Hin|Hin]; [injection Hin as _ ->; lia|].
    by apply elem_of_nil in Hin.
  - by vm_compute.
  - by vm_compute.
Defined.

(** X16: a signal only touches its own session. Whatever the payload, for
    every id other than the one it carries, the handler leaves membership in
    the set and the recorded time as they were. *)
Theorem X16_handler_touches_one_session
    (data : payload) (now : Z) (w : world) (c : pyval) :
  c ≠ payload_get data "id" ->
  let w' := snd (handle_connection_status data now w) in
  (c ∈ active_connections w' <-> c ∈ active_connections w) /\
  connection_last_ping w' !! c = connection_last_ping w !! c.
Proof.
  intros Hne w'. subst w'.
  pose proof (handler_registry data now w) as Hreg.
  unfold registry, registry_effect in Hreg. cbn [fst snd] in Hreg.
  destruct (refreshing (payload_get data "status") && truthy (payload_get data "id")).
  - injection Hreg as -> ->. split; [set_solver|]. by rewrite lookup_insert_ne.
  - destruct (eq_str (payload_get data "status") "disconnected"
              && bool_decide (payload_get data "id" ∈ active_connections w)).
    + injection Hreg as -> ->. split; [set_solver|]. by rewrite lookup_delete_ne.
    + by injection Hreg as -> ->.
Qed.

Lemma X16_handler_touches_one_session_witness :
  connection_last_ping
    (snd (handle_connection_status (signal "disconnected" "a") 1010
       (run [Signal (signal "connected" "a") 1001;
             Signal (signal "connected" "b") 1002] (init 1000)))) !! PyStr "b" =
  connection_last_ping
    (run [Signal (signal "connected" "a") 1001;
          Signal (signal "connected" "b") 1002] (init 1000)) !! PyStr "b".
Proof.
  refine (proj2 (X16_handler_touches_one_session _ 1010 _ (PyStr "b") _)).
  by vm_compute.
Defined.

(** A monitor that has recorded no session and tracks none stays so under
    any number of iterations. *)
Lemma idle_monitor_stays_idle (clock : list (Z * Z)) : forall w,
  active_connections w = ∅ -> had_connections w = false -> exit_calls w = [] ->
  let w' := run (map (fun p => Tick (fst p) (snd p)) clock) w in
  active_connections w' = ∅ /\ had_connections w' = false /\ exit_calls w' = [].
Proof.
  induction clock as [|[t1 t2] clock IH]; intros w He Hh Hx; [done|].
  cbn [map]. rewrite run_cons. cbn [fst snd].
  assert (Hstep : active_connections (step (Tick t1 t2) w) = ∅ /\
                  had_connections (step (Tick t1 t2) w) = false /\
                  exit_calls (step (Tick t1 t2) w) = []).
  { unfold step, alive. rewrite Hx.
    destruct (Z.lt_ge_cases (t1 - startup_time w) startup_grace_period) as [Hg|Hg].
    { by rewrite monitor_iteration_grace. }
    destruct (monitor_iteration_armed t1 t2 w Hg) as (Hact & _ & _ & _ & _ & Hno).
    assert (He' : active_connections (snd (monitor_iteration t1 t2 w)) = ∅).
    { apply set_eq. intros c. rewrite Hact, He. set_solver. }
    destruct (Hno He' Hh) as (_ & ? & ->). done. }
  destruct Hstep as (? & ? & ?). by apply IH.
Qed.

Lemma payload_get_signal (status id : string) :
  payload_get (signal status id) "id" = PyStr id /\
  payload_get (signal status id) "status" = PyStr status.
Proof. split; by vm_compute. Qed.

Lemma step_signal_frame data now w :
  had_connections (step (Signal data now) w) = had_connections w /\
  exit_calls (step (Signal data now) w) = exit_calls w.
Proof.
  unfold step. destruct (alive w); [|done].
  by destruct (handler_frame data now w) as (-> & _ & ->).
Qed.

(** A session that opens and closes between two iterations of the monitor
    loop is never recorded: whatever the id and the clock readings, and
    however many iterations run before and after, also after the grace
    period, [had_connections] stays false and [os._exit] is never called. *)
Lemma session_between_polls_never_recorded
    (t0 t_in t_out : Z) (c : string) (before after : list (Z * Z)) :
  let ticks := map (fun p => Tick (fst p) (snd p)) in
  let w := run (ticks before ++
                [Signal (signal "connected" c) t_in;
                 Signal (signal "disconnected" c) t_out] ++ ticks after)
               (init t0) in
  active_connections w = ∅ /\ had_connections w = false /\ exit_calls w = [].
Proof.
  intros ticks w. subst w ticks. rewrite !run_app.
  destruct (idle_monitor_stays_idle before (init t0) eq_refl eq_refl eq_refl)
    as (He & Hh & Hx).
  set (w0 := run (map (fun p => Tick (fst p) (snd p)) before) (init t0)) in *.
  set (d_in := signal "connected" c). set (d_out := signal "disconnected" c).
  assert (Hx1 : exit_calls (step (Signal d_in t_in) w0) = [])
    by (by rewrite (proj2 (step_signal_frame _ _ _))).
  apply idle_monitor_stays_idle; cbn [run fold_left].
  - assert (Hreg : registry (step (Signal d_out t_out) (step (Signal d_in t_in) w0)) =
                   registry_effect d_out t_out (registry_effect d_in t_in (registry w0))).
    { unfold step at 1. unfold alive at 1. rewrite Hx1.
      rewrite handler_registry. f_equal.
      unfold step, alive. rewrite Hx. apply handler_registry. }
    unfold registry at 2 in Hreg. rewrite He in Hreg.
    destruct (payload_get_signal "connected" c) as [Hi1 Hs1].
    destruct (payload_get_signal "disconnected" c) as [Hi2 Hs2].
    subst d_in d_out. unfold registry_effect in Hreg.
    rewrite Hi1, Hs1, Hi2, Hs2 in Hreg.
    replace (refreshing (PyStr "connected")) with true in Hreg by (by vm_compute).
    replace (refreshing (PyStr "disconnected")) with false in Hreg by (by vm_compute).
    replace (eq_str (PyStr "disconnected") "disconnected") with true in Hreg
      by (by vm_compute).
    replace (eq_str (PyStr "connected") "disconnected") with false in Hreg
      by (by vm_compute).
    cbn [andb fst snd] in Hreg.
    destruct (truthy (PyStr c)); cbn [fst snd] in Hreg.
    + rewrite bool_decide_eq_true_2 in Hreg by set_solver. cbn [fst snd] in Hreg.
      injection Hreg as Ha _. rewrite Ha. set_solver.
    + rewrite bool_decide_eq_false_2 in Hreg by set_solver.
      by injection Hreg as Ha _.
  - by rewrite !(proj1 (step_signal_frame _ _ _)).
  - by rewrite !(proj2 (step_signal_frame _ _ _)).
Qed.

End tracker_laws.

(* ===================================================================== *)
(** ** Facts about the pandas operations *)
(* ===================================================================== *)

Section frame_facts.
Implicit Types (r : track) (l df dff : list track) (key : track -> Z).

Lemma elem_of_filter_bool (f : track -> bool) l r :
  r ∈ List.filter f l <-> r ∈ l /\ f r = true.
Proof. by rewrite !list_elem_of_In, filter_In. Qed.

Lemma filter_bool_sublist (f : track -> bool) l : List.filter f l `sublist_of` l.
Proof.
  induction l as [|x l IH]; cbn; [done|].
  destruct (f x); [by apply sublist_skip|by apply sublist_cons].
Qed.

(** A weaker mask selects more rows, in the same order. *)
Lemma filter_bool_mono (f g : track -> bool) l :
  (forall r, r ∈ l -> f r = true -> g r = true) ->
  List.filter f l `sublist_of` List.filter g l.
Proof.
  induction l as [|x l IH]; intros Hfg; cbn; [done|].
  assert (IH' : List.filter f l `sublist_of` List.filter g l).
  { apply IH. intros r Hr. apply Hfg. by right. }
  destruct (f x) eqn:Hf.
  - rewrite (Hfg x) by (done || left). by apply sublist_skip.
  - destruct (g x); [by apply sublist_cons|done].
Qed.

Lemma filter_bool_of_sublist (f : track -> bool) l1 l2 :
  l1 `sublist_of` l2 -> List.filter f l1 `sublist_of` List.filter f l2.
Proof.
  induction 1 as [|x l1 l2 _ IH|x l1 l2 _ IH]; cbn; [done| |].
  - destruct (f x); [by apply sublist_skip|done].
  - destruct (f x); [by apply sublist_cons|done].
Qed.

(** A mask and its negation split a frame. *)
Lemma filter_bool_split (f : track -> bool) l :
  l ≡ₚ List.filter (fun r => negb (f r)) l ++ List.filter f l.
Proof.
  induction l as [|x l IH]; cbn; [done|]. destruct (f x); cbn.
  - rewrite <- Permutation_middle. by f_equiv.
  - by f_equiv.
Qed.

Lemma insert_by_Permutation key r l : insert_by key r l ≡ₚ r :: l.
Proof.
  induction l as [|y l IH]; cbn; [done|].
  destruct (key y <? key r); [|done].
  rewrite IH. apply Permutation_swap.
Qed.

Lemma sort_by_Permutation key l : sort_by key l ≡ₚ l.
Proof.
  induction l as [|x l IH]; cbn; [done|].
  rewrite insert_by_Permutation. by f_equiv.
Qed.

Lemma insert_by_sorted key r l :
  StronglySorted (fun a b => key a <= key b) l ->
  StronglySorted (fun a b => key a <= key b) (insert_by key r l).
Proof.
  induction l as [|y l IH]; intros Hs; cbn.
  - repeat constructor.
  - apply StronglySorted_inv in Hs as [Hl Hy].
    destruct (key y <? key r) eqn:E.
    + apply Z.ltb_lt in E. constructor; [by apply IH|].
      rewrite insert_by_Permutation. constructor; [lia|done].
    + apply Z.ltb_ge in E. constructor; [by constructor|].
      constructor; [done|].
      eapply Forall_impl; [exact Hy|]. intros z Hz. cbn in *. lia.
Qed.

Lemma sort_by_sorted key l :
  StronglySorted (fun a b => key a <= key b) (sort_by key l).
Proof.
  induction l as [|x l IH]; cbn; [constructor|]. by apply insert_by_sorted.
Qed.

(** [first_occurrences]: what is kept, in terms of the rows before. *)
Lemma first_occurrences_sublist {A K : Type} `{EqDecision K}
    (key : A -> K) (l : list A) : forall seen,
  first_occurrences key seen l `sublist_of` l.
Proof.
  induction l as [|x l IH]; intros seen; cbn; [done|].
  case_bool_decide; [by apply sublist_cons|by apply sublist_skip].
Qed.

Lemma first_occurrences_keys {A K : Type} `{EqDecision K}
    (key : A -> K) (l : list A) : forall seen,
  NoDup (key <$> first_occurrences key seen l) /\
  (forall r : A, r ∈ first_occurrences key seen l -> key r ∉ seen).
Proof.
  induction l as [|x l IH]; intros seen; cbn.
  - split; [constructor|]. by intros r ?%elem_of_nil.
  - case_bool_decide as Hx; [apply IH|].
    destruct (IH (key x :: seen)) as [Hnd Hout]. split.
    + cbn. apply NoDup_cons. split; [|done].
      intros (r & Hk & Hr)%list_elem_of_fmap. apply (Hout r Hr).
      rewrite <- Hk. by left.
    + intros r [->|Hr]%elem_of_cons; [done|].
      intros Hin. apply (Hout r Hr). by right.
Qed.

Lemma first_occurrences_covers {A K : Type} `{EqDecision K}
    (key : A -> K) (l : list A) : forall seen (r : A),
  r ∈ l ->
  key r ∈ seen \/ key r ∈ key <$> first_occurrences key seen l.
Proof.
  induction l as [|x l IH]; intros seen r Hr; [by apply elem_of_nil in Hr|].
  cbn. apply elem_of_cons in Hr as [->|Hr].
  - case_bool_decide; [by left|]. right. cbn. by left.
  - case_bool_decide.
    + by apply IH.
    + destruct (IH (key x :: seen) r Hr) as [[->|Hs]%elem_of_cons|Hk].
      * right. cbn. by left.
      * by left.
      * right. cbn. by right.
Qed.

Lemma first_occurrences_first {A K : Type} `{EqDecision K}
    (key : A -> K) (l : list A) : forall seen (r : A),
  r ∈ first_occurrences key seen l ->
  exists l1 l2 : list A, l = l1 ++ r :: l2 /\ key r ∉ key <$> l1.
Proof.
  induction l as [|x l IH]; intros seen r Hr; [by apply elem_of_nil in Hr|].
  cbn in Hr. case_bool_decide as Hx.
  - destruct (IH seen r Hr) as (l1 & l2 & -> & Hk).
    exists (x :: l1), l2. split; [done|]. cbn. apply not_elem_of_cons. split; [|done].
    intros Heq. apply (proj2 (first_occurrences_keys key _ seen) r Hr).
    by rewrite Heq.
  - apply elem_of_cons in Hr as [->|Hr].
    + exists [], l. split; [done|]. cbn. by intros ?%elem_of_nil.
    + destruct (IH _ r Hr) as (l1 & l2 & -> & Hk).
      exists (x :: l1), l2. split; [done|]. cbn. apply not_elem_of_cons. split; [|done].
      intros Heq. apply (proj2 (first_occurrences_keys key _ (key x :: seen)) r Hr).
      rewrite Heq. by left.
Qed.

Lemma string_ltb_leb (a b : string) :
  String.ltb a b = true -> String.leb a b = true.
Proof. unfold String.ltb, String.leb. by destruct (String.compare a b). Qed.

Lemma string_ltb_false_leb (a b : string) :
  String.ltb a b = false -> String.leb b a = true.
Proof.
  unfold String.ltb, String.leb. rewrite (String.compare_antisym b a).
  by destruct (String.compare a b).
Qed.

Lemma insert_string_Permutation (s : string) (l : list string) :
  insert_string s l ≡ₚ s :: l.
Proof.
  induction l as [|y l IH]; cbn; [done|].
  destruct (String.ltb y s); [|done].
  rewrite IH. apply Permutation_swap.
Qed.

Lemma sorted_Permutation (l : list string) : sorted l ≡ₚ l.
Proof.
  induction l as [|x l IH]; cbn; [done|].
  rewrite insert_string_Permutation. by f_equiv.
Qed.

Lemma insert_string_Sorted (s : string) (l : list string) :
  Sorted (fun a b => String.leb a b = true) l ->
  Sorted (fun a b => String.leb a b = true) (insert_string s l).
Proof.
  induction l as [|y l IH]; intros Hs; cbn.
  - repeat constructor.
  - apply Sorted_inv in Hs as [Hl Hy].
    destruct (String.ltb y s) eqn:E.
    + constructor; [by apply IH|].
      destruct l as [|z l]; cbn.
      * constructor. by apply string_ltb_leb.
      * apply HdRel_inv in Hy.
        destruct (String.ltb z s); constructor; [done|by apply string_ltb_leb].
    + constructor; [by constructor|].
      constructor. by apply string_ltb_false_leb.
Qed.

Lemma sorted_Sorted (l : list string) :
  Sorted (fun a b => String.leb a b = true) (sorted l).
Proof.
  induction l as [|x l IH]; cbn; [constructor|]. by apply insert_string_Sorted.
Qed.

Lemma elem_of_unique (l : list string) (g : string) : g ∈ unique l <-> g ∈ l.
Proof.
  unfold unique. split.
  - apply (sublist_subseteq _ _ (first_occurrences_sublist _ l [])).
  - intros Hg.
    destruct (first_occurrences_covers (fun g : string => g) l [] g Hg) as [Hs|Hk].
    + by apply elem_of_nil in Hs.
    + by rewrite list_fmap_id in Hk.
Qed.

Lemma NoDup_unique (l : list string) : NoDup (unique l).
Proof.
  pose proof (proj1 (first_occurrences_keys (fun g : string => g) l [])) as Hnd.
  by rewrite list_fmap_id in Hnd.
Qed.

(** The two tables agree: the labelled metrics are the listed columns. *)
Lemma metric_labels_dom : dom metric_labels = list_to_set NUMERIC_COLS.
Proof. by vm_compute. Qed.

Lemma metric_label_listed c :
  c ∈ NUMERIC_COLS <-> is_Some (metric_labels !! c).
Proof.
  by rewrite <- elem_of_dom, metric_labels_dom, elem_of_list_to_set.
Qed.

Lemma subscript_Ok (l : list Z) i :
  (i < length l)%nat -> exists v, l !! i = Some v /\ subscript l i = Ok v.
Proof.
  intros [v Hv]%lookup_lt_is_Some_2. exists v. unfold subscript. by rewrite Hv.
Qed.

(** The filtered frame when the range has its two ends. *)
Lemma filter_dataframe_Ok df genres pop_range explicit_filter lo hi :
  pop_range !! 0%nat = Some lo -> pop_range !! 1%nat = Some hi ->
  filter_dataframe df genres pop_range explicit_filter =
  Ok (if bool_decide (explicit_filter = "non") then
        List.filter (fun r => negb (explicit r)) (List.filter (row_mask genres lo hi) df)
      else if bool_decide (explicit_filter = "explicit") then
        List.filter explicit (List.filter (row_mask genres lo hi) df)
      else List.filter (row_mask genres lo hi) df).
Proof.
  intros H0 H1. unfold filter_dataframe, subscript. rewrite H0, H1. done.
Qed.

End frame_facts.

(* ===================================================================== *)
(** ** The figures callback *)
(* ===================================================================== *)

Section figures.
Implicit Types (r : track) (df dff : list track) (genres : list string)
  (pop_range : list Z).

(** X9: the failures of [update_figures], in the order in which they arise.
    A range with fewer than two ends raises [IndexError] whatever the
    metrics; otherwise an [x_col] without a label raises [KeyError] for it,
    then a [y_col] without a label for that one; and for any two metrics of
    [NUMERIC_COLS], which are the values of the options of the two metric
    dropdowns, the three figures are returned. *)
Theorem X9_update_figures_outcome
    df genres pop_range (explicit_filter x_col y_col : string) :
  let out := update_figures df genres pop_range explicit_filter x_col y_col in
  ((length pop_range < 2)%nat -> out = Err IndexError) /\
  ((2 <= length pop_range)%nat -> metric_labels !! x_col = None ->
     out = Err (MetricKeyError x_col)) /\
  ((2 <= length pop_range)%nat -> is_Some (metric_labels !! x_col) ->
     metric_labels !! y_col = None -> out = Err (MetricKeyError y_col)) /\
  ((2 <= length pop_range)%nat -> x_col ∈ NUMERIC_COLS -> y_col ∈ NUMERIC_COLS ->
     exists figs, out = Ok figs) /\
  (exists opts, metric_options = Ok opts /\ opts.*2 = NUMERIC_COLS).
Proof.
  intros out. subst out. unfold update_figures.
  assert (Hok : (2 <= length pop_range)%nat ->
    exists dff, filter_dataframe df genres pop_range explicit_filter = Ok dff).
  { intros Hlen.
    destruct (subscript_Ok pop_range 0) as (lo & Hlo & _); [lia|].
    destruct (subscript_Ok pop_range 1) as (hi & Hhi & _); [lia|].
    rewrite (filter_dataframe_Ok _ _ _ _ lo hi) by done. by eexists. }
  split; [|split; [|split; [|split]]].
  - intros Hlen. unfold filter_dataframe, subscript.
    destruct pop_range as [|lo [|hi rest]]; cbn in *; [done|done|lia].
  - intros Hlen Hx. destruct (Hok Hlen) as [dff ->]. cbn.
    unfold metric_label. by rewrite Hx.
  - intros Hlen [lx Hx] Hy. destruct (Hok Hlen) as [dff ->]. cbn.
    unfold metric_label. by rewrite Hx, Hy.
  - intros Hlen [lx Hx]%metric_label_listed [ly Hy]%metric_label_listed.
    destruct (Hok Hlen) as [dff ->]. cbn.
    unfold metric_label. rewrite Hx, Hy. cbn. by eexists.
  - eexists. split; [by vm_compute|by vm_compute].
Qed.

Lemma X9_update_figures_outcome_witness :
  exists figs,
    update_figures [Track "Song" "Band" "pop" 50 false] ["pop"] [20; 80] "all"
      "danceability" "energy" = Ok figs.
Proof.
  refine (proj1 (proj2 (proj2 (proj2 (X9_update_figures_outcome
    [Track "Song" "Band" "pop" 50 false] ["pop"] [20; 80] "all"
    "danceability" "energy")))) _ _ _).
  - cbn. lia.
  - apply (bool_decide_unpack _). by vm_compute.
  - apply (bool_decide_unpack _). by vm_compute.
Defined.

(** X10: the explicitness radio splits the selection. For the same genres and
    range, the rows selected with a filter value other than ["non"] and
    ["explicit"] (the radio's ["all"]) are the rows selected with ["non"]
    together with those selected with ["explicit"]: the two are disjoint
    parts of it, in its order, and the track counts add up. *)
Theorem X10_explicit_filter_splits
    df genres pop_range (explicit_filter : string) (all : list track) :
  explicit_filter ≠ "non" -> explicit_filter ≠ "explicit" ->
  filter_dataframe df genres pop_range explicit_filter = Ok all ->
  exists non exp,
    filter_dataframe df genres pop_range "non" = Ok non /\
    filter_dataframe df genres pop_range "explicit" = Ok exp /\
    non = List.filter (fun r => negb (explicit r)) all /\
    exp = List.filter explicit all /\
    all ≡ₚ non ++ exp /\
    length all = (length non + length exp)%nat.
Proof.
  intros Hn He Hall. unfold filter_dataframe in *.
  destruct (subscript pop_range 0) as [lo|]; [|done].
  destruct (subscript pop_range 1) as [hi|]; [|done].
  cbn in *. rewrite !bool_decide_eq_false_2 in Hall by done.
  injection Hall as <-.
  eexists _, _. split; [done|]. split; [done|]. split; [done|]. split; [done|].
  pose proof (filter_bool_split explicit
                (List.filter (row_mask genres lo hi) df)) as Hsplit.
  split; [done|]. by rewrite Hsplit at 1; rewrite length_app.
Qed.

Lemma X10_explicit_filter_splits_witness :
  exists non exp,
    filter_dataframe [Track "A" "X" "pop" 50 false; Track "B" "Y" "pop" 60 true]
      ["pop"] [20; 80] "non" = Ok non /\
    filter_dataframe [Track "A" "X" "pop" 50 false; Track "B" "Y" "pop" 60 true]
      ["pop"] [20; 80] "explicit" = Ok exp /\
    non = List.filter (fun r => negb (explicit r))
            [Track "A" "X" "pop" 50 false; Track "B" "Y" "pop" 60 true] /\
    exp = List.filter explicit
            [Track "A" "X" "pop" 50 false; Track "B" "Y" "pop" 60 true] /\
    [Track "A" "X" "pop" 50 false; Track "B" "Y" "pop" 60 true] ≡ₚ non ++ exp /\
    length [Track "A" "X" "pop" 50 false; Track "B" "Y" "pop" 60 true] =
    (length non + length exp)%nat.
Proof.
  apply (X10_explicit_filter_splits _ _ _ "all").
  - done.
  - done.
  - by vm_compute.
Defined.

(** X11: an empty selection is not an error. With no genre selected, or with
    a range whose lower end is above its upper end, the callback still returns
    its three figures for listed metrics: all three have an empty frame and
    the scatter title counts 0 tracks. *)
Theorem X11_empty_selection
    df genres pop_range (explicit_filter x_col y_col : string) (lo hi : Z) :
  pop_range !! 0%nat = Some lo -> pop_range !! 1%nat = Some hi ->
  genres = [] \/ hi < lo ->
  x_col ∈ NUMERIC_COLS -> y_col ∈ NUMERIC_COLS ->
  exists scatter box bar x_label y_label,
    update_figures df genres pop_range explicit_filter x_col y_col =
      Ok (scatter, box, bar) /\
    fig_data scatter = [] /\ fig_data box = [] /\ fig_data bar = [] /\
    metric_labels !! x_col = Some x_label /\
    metric_labels !! y_col = Some y_label /\
    fig_title scatter = x_label +:+ " vs " +:+ y_label +:+ " (0 tracks)".
Proof.
  intros Hlo Hhi Hempty [lx Hx]%metric_label_listed [ly Hy]%metric_label_listed.
  assert (Hnone : List.filter (row_mask genres lo hi) df = []).
  { apply elem_of_nil_inv. intros r [_ Hr]%elem_of_filter_bool.
    unfold row_mask, isin, between in Hr.
    apply andb_true_iff in Hr as [Hg [?%Z.leb_le ?%Z.leb_le]%andb_true_iff].
    destruct Hempty as [->|Hlt]; [|lia].
    apply bool_decide_eq_true in Hg. by apply elem_of_nil in Hg. }
  unfold update_figures.
  rewrite (filter_dataframe_Ok _ _ _ _ lo hi) by done. rewrite Hnone.
  assert (Hdff : (if bool_decide (explicit_filter = "non")
                  then List.filter (fun r => negb (explicit r)) []
                  else if bool_decide (explicit_filter = "explicit")
                       then List.filter explicit [] else []) = @nil track).
  { by repeat case_bool_decide. }
  rewrite Hdff. cbn. unfold metric_label. rewrite Hx, Hy. cbn.
  eexists _, _, _, lx, ly. split; [done|]. cbn. done.
Qed.

Lemma X11_empty_selection_witness :
  exists scatter box bar x_label y_label,
    update_figures [Track "Song" "Band" "pop" 50 false] [] [20; 80] "all"
      "tempo" "valence" = Ok (scatter, box, bar) /\
    fig_data scatter = [] /\ fig_data box = [] /\ fig_data bar = [] /\
    metric_labels !! "tempo" = Some x_label /\
    metric_labels !! "valence" = Some y_label /\
    fig_title scatter = x_label +:+ " vs " +:+ y_label +:+ " (0 tracks)".
Proof.
  apply (X11_empty_selection _ _ _ _ _ _ 20 80).
  - done.
  - done.
  - by left.
  - apply (bool_decide_unpack _). by vm_compute.
  - apply (bool_decide_unpack _). by vm_compute.
Defined.

(** X12: widening the controls never loses a track. With more genres selected
    and a wider popularity range, and the same explicitness filter, every row
    selected before is still selected, in the same order. *)
Theorem X12_wider_selection_keeps_rows
    df genres genres' pop_range pop_range' (explicit_filter : string)
    (lo hi lo' hi' : Z) (dff dff' : list track) :
  pop_range !! 0%nat = Some lo -> pop_range !! 1%nat = Some hi ->
  pop_range' !! 0%nat = Some lo' -> pop_range' !! 1%nat = Some hi' ->
  genres ⊆ genres' -> lo' <= lo -> hi <= hi' ->
  filter_dataframe df genres pop_range explicit_filter = Ok dff ->
  filter_dataframe df genres' pop_range' explicit_filter = Ok dff' ->
  dff `sublist_of` dff'.
Proof.
  intros Hlo Hhi Hlo' Hhi' Hsub Hl Hh.
  rewrite (filter_dataframe_Ok _ _ _ _ lo hi) by done.
  rewrite (filter_dataframe_Ok _ _ _ _ lo' hi') by done.
  intros [= <-] [= <-].
  assert (Hmono : List.filter (row_mask genres lo hi) df
                  `sublist_of` List.filter (row_mask genres' lo' hi') df).
  { apply filter_bool_mono. intros r _. unfold row_mask, isin, between.
    intros [Hg [?%Z.leb_le ?%Z.leb_le]%andb_true_iff]%andb_true_iff.
    apply bool_decide_eq_true in Hg.
    rewrite bool_decide_eq_true_2 by (by apply Hsub). cbn.
    apply andb_true_iff. split; apply Z.leb_le; lia. }
  repeat case_bool_decide; try done; by apply filter_bool_of_sublist.
Qed.

Lemma X12_wider_selection_keeps_rows_witness :
  [Track "A" "X" "pop" 50 false] `sublist_of`
  [Track "A" "X" "pop" 50 false; Track "B" "Y" "rock" 90 false].
Proof.
  apply (X12_wider_selection_keeps_rows
           [Track "A" "X" "pop" 50 false; Track "B" "Y" "rock" 90 false]
           ["pop"] ["rock"; "pop"] [20; 80] [0; 100] "non" 20 80 0 100).
  - reflexivity.
  - reflexivity.
  - reflexivity.
  - reflexivity.
  - intros g. rewrite !elem_of_cons. intros [->|?%elem_of_nil]; [|done].
    right. by left.
  - lia.
  - lia.
  - by vm_compute.
  - by vm_compute.
Defined.

(** X13: [drop_duplicates] over name and artists keeps one row per song,
    the first one. The result is a part of the frame, in its order; no two of
    its rows have the same name and artists; every song of the frame is still
    there; and no row before a kept row has its name and artists. *)
Theorem X13_drop_duplicates_keeps_first (dff : list track) :
  drop_duplicates dff `sublist_of` dff /\
  NoDup (track_key <$> drop_duplicates dff) /\
  (forall r, r ∈ dff -> track_key r ∈ track_key <$> drop_duplicates dff) /\
  (forall r, r ∈ drop_duplicates dff ->
     exists before after,
       dff = before ++ r :: after /\ track_key r ∉ track_key <$> before).
Proof.
  unfold drop_duplicates. split; [apply first_occurrences_sublist|].
  split; [apply first_occurrences_keys|]. split.
  - intros r Hr. destruct (first_occurrences_covers track_key dff [] r Hr) as [Hs|Hk]; [|done].
    by apply elem_of_nil in Hs.
  - intros r Hr. by apply (first_occurrences_first track_key dff []).
Qed.

(** X14: the frame of the bar chart. It has ten rows, or all the songs of
    the filtered frame when there are fewer; no song occurs twice; its rows
    come from the filtered frame and are in increasing order of popularity;
    and every song left out is at most as popular as every song shown. *)
Theorem X14_bar_frame_top_ten (dff : list track) :
  let bar := bar_frame dff in
  length bar = (length (drop_duplicates dff) `min` 10)%nat /\
  NoDup (track_key <$> bar) /\
  (forall r, r ∈ bar -> r ∈ dff) /\
  StronglySorted (fun a b => popularity a <= popularity b) bar /\
  exists rest,
    drop_duplicates dff ≡ₚ bar ++ rest /\
    forall b r, b ∈ bar -> r ∈ rest -> popularity r <= popularity b.
Proof.
  intros bar. subst bar. unfold bar_frame, sort_values, nlargest.
  set (uniq := drop_duplicates dff).
  set (desc := sort_by (fun r => - popularity r) uniq).
  assert (Hperm : uniq ≡ₚ sort_by popularity (take 10 desc) ++ drop 10 desc).
  { rewrite sort_by_Permutation, take_drop. subst desc.
    by rewrite sort_by_Permutation. }
  split; [|split; [|split; [|split]]].
  - rewrite sort_by_Permutation, length_take. subst desc.
    rewrite sort_by_Permutation. lia.
  - assert (Hnd : NoDup (track_key <$> uniq)) by apply first_occurrences_keys.
    rewrite Hperm, fmap_app in Hnd. by apply NoDup_app in Hnd as [? _].
  - intros r Hr.
    assert (r ∈ uniq) as Hu by (rewrite Hperm; apply elem_of_app; by left).
    by apply (sublist_subseteq _ _ (first_occurrences_sublist track_key dff [])).
  - apply sort_by_sorted.
  - exists (drop 10 desc). split; [done|].
    intros b r Hb Hr. rewrite sort_by_Permutation in Hb.
    pose proof (sort_by_sorted (fun r => - popularity r) uniq) as Hs.
    fold desc in Hs. rewrite <- (take_drop 10 desc) in Hs.
    pose proof (StronglySorted_app_1_elem_of _ _ _ b r Hs Hb Hr) as Hle.
    cbn in Hle. lia.
Qed.

(** X15: the genre dropdown. Its option values are the genres of the
    dataset, each once, in increasing order. Its initial value is pop and
    rock as soon as some row has genre pop, whether or not any row has genre
    rock; otherwise it is the first three option values, or all of them when
    there are fewer. *)
Theorem X15_genre_dropdown (df : list track) :
  let opts := genre_values df in
  NoDup opts /\
  (forall g, g ∈ opts <-> exists r, r ∈ df /\ track_genre r = g) /\
  Sorted (fun a b => String.leb a b = true) opts /\
  ("pop" ∈ opts -> default_genres df = ["pop"; "rock"]) /\
  ("pop" ∉ opts ->
     default_genres df = take 3 opts /\
     length (default_genres df) = (length opts `min` 3)%nat /\
     forall g, g ∈ default_genres df -> g ∈ opts).
Proof.
  intros opts. subst opts. unfold genre_values.
  assert (Hmem : forall g, g ∈ sorted (unique (track_genre <$> df)) <->
                           g ∈ track_genre <$> df).
  { intros g. by rewrite sorted_Permutation, elem_of_unique. }
  split; [|split; [|split; [|split]]].
  - rewrite sorted_Permutation. apply NoDup_unique.
  - intros g. rewrite Hmem, list_elem_of_fmap. naive_solver.
  - apply sorted_Sorted.
  - intros Hpop%Hmem. unfold default_genres. by rewrite bool_decide_eq_true_2.
  - intros Hpop. unfold default_genres, genre_values.
    rewrite bool_decide_eq_false_2 by (by rewrite <- Hmem).
    split; [done|]. split; [by rewrite length_take; lia|].
    intros g. apply subseteq_take.
Qed.

Lemma X15_genre_dropdown_witness :
  default_genres [Track "A" "X" "rock" 50 false; Track "B" "Y" "jazz" 60 true;
                  Track "C" "Z" "folk" 10 false; Track "D" "X" "rock" 30 false;
                  Track "E" "W" "blues" 90 false] =
  take 3 (genre_values
            [Track "A" "X" "rock" 50 false; Track "B" "Y" "jazz" 60 true;
             Track "C" "Z" "folk" 10 false; Track "D" "X" "rock" 30 false;
             Track "E" "W" "blues" 90 false]).
Proof.
  refine (proj1 (proj2 (proj2 (proj2 (proj2 (X15_genre_dropdown _)))) _)).
  apply (bool_decide_unpack _). by vm_compute.
Defined.

(** The operations on a small frame. *)
Example frame_operations :
  let df := [Track "A" "X" "rock" 50 false; Track "B" "Y" "jazz" 60 true;
             Track "A" "X" "pop" 70 false; Track "C" "Z" "folk" 10 false;
             Track "B" "Q" "rock" 65 false] in
  drop_duplicates df =
    [Track "A" "X" "rock" 50 false; Track "B" "Y" "jazz" 60 true;
     Track "C" "Z" "folk" 10 false; Track "B" "Q" "rock" 65 false] /\
  nlargest 2 (drop_duplicates df) =
    [Track "B" "Q" "rock" 65 false; Track "B" "Y" "jazz" 60 true] /\
  bar_frame df =
    [Track "C" "Z" "folk" 10 false; Track "A" "X" "rock" 50 false;
     Track "B" "Y" "jazz" 60 true; Track "B" "Q" "rock" 65 false] /\
  genre_values df = ["folk"; "jazz"; "pop"; "rock"] /\
  default_genres df = ["pop"; "rock"] /\
  filter_dataframe df ["rock"; "jazz"] [50; 65] "non" =
    Ok [Track "A" "X" "rock" 50 false; Track "B" "Q" "rock" 65 false] /\
  filter_dataframe df ["rock"] [50] "non" = Err IndexError.
Proof. cbv zeta. repeat split; by vm_compute. Qed.

End figures.
